(** * The sync routes of the ElEditor API server (src/routes/sync.ts)

    A shallow embedding of the Express router that saves, loads, restores
    and deletes per-thread editor data, together with the properties of its
    versioning, backup and conflict protocol, and of the authentication
    middleware in front of it (src/middleware/auth.ts, with the logout route
    of src/routes/auth.ts).

    What is modelled, and how:
    - the three tables the SQL statements of sync.ts address.  The statements
      key [user_data] by (user_id, thread_id) (their WHERE clauses and the
      ON CONFLICT target) and [storage_stats] by user_id, so both are finite
      maps on those keys; [data_backups] is an append-only list of rows;
    - every [db.query] as one statement of the store, which either resolves
      or rejects; which statements reject is an input of the request
      ([fails]), as are the clocks and the identifier the store generates
      for a new backup row;
    - BEGIN / COMMIT / ROLLBACK as snapshot, publish and discard of a working
      copy.  The store may or may not mark a transaction as aborted after a
      rejected statement (PostgreSQL does); both behaviours are covered by
      the flag [aborts_on_error];
    - the values the handlers hand to the driver as parameters, as the
      value the column holds once the store has accepted the statement
      ([pg_param]);
    - JavaScript exceptions as an error outcome with [try_catch];
    - the router as the list of its routes in registration order, matched
      against the segments of the URL as they were sent, with the
      percent-decoding of route parameters and the application's handlers
      for unrouted requests and unhandled errors (src/index.ts).

    One request runs at a time, its statements reach the store in program
    order on one connection, and the routes are entered after [requireAuth]
    has resolved the user: the handlers take [userId].  The middleware has
    its own tables ([users], [user_sessions]); [jwt.verify], the SHA-256
    digest and the clocks are inputs.  Numbers are integers;
    [id] and [created_at] of [user_data], which no statement of sync.ts
    writes or reads by name, are left out of its rows. *)

From Stdlib Require Import ZArith Ascii String List Lia.
From stdpp Require Import base option numbers strings list gmap sorting.

Local Open Scope string_scope.
Local Open Scope Z_scope.
Local Set Warnings "-register-all".

(** ** JSON values and JavaScript truthiness *)

Inductive JSON : Type :=
| JNull
| JBool (b : bool)
| JNum (n : Z)
| JStr (s : string)
| JArr (items : list JSON)
| JObj (fields : list (string * JSON)).

(** [ToBoolean] on a JSON value: null, false, 0 and the empty string are
    falsy, arrays and objects are always truthy. *)
Definition truthy (v : JSON) : bool :=
  match v with
  | JNull => false
  | JBool b => b
  | JNum n => negb (n =? 0)
  | JStr s => negb (String.eqb s "")
  | JArr _ | JObj _ => true
  end.

Definition truthy_str (s : string) : bool := negb (String.eqb s "").

(** [!x] for a property that may be missing ([None] is [undefined]). *)
Definition js_not {A} (to_boolean : A -> bool) (x : option A) : bool :=
  match x with
  | None => true
  | Some v => negb (to_boolean v)
  end.

(** ** parseInt (radix left undefined) *)

Definition is_js_space (c : ascii) : bool :=
  let n := nat_of_ascii c in
  (Nat.eqb n 32 || (Nat.leb 9 n && Nat.leb n 13))%bool.

Fixpoint skip_space (s : string) : string :=
  match s with
  | String c rest => if is_js_space c then skip_space rest else s
  | EmptyString => s
  end.

Definition digit_value (c : ascii) : option Z :=
  let n := Z.of_nat (nat_of_ascii c) in
  if (48 <=? n) && (n <=? 57) then Some (n - 48)
  else if (97 <=? n) && (n <=? 122) then Some (n - 87)
  else if (65 <=? n) && (n <=? 90) then Some (n - 55)
  else None.

(** The longest prefix of digits of the radix; [None] when it is empty. *)
Fixpoint digits (radix : Z) (s : string) (acc : option Z) : option Z :=
  match s with
  | String c rest =>
      match digit_value c with
      | Some d =>
          if d <? radix then digits radix rest (Some (default 0 acc * radix + d))
          else acc
      | None => acc
      end
  | EmptyString => acc
  end.

(** [None] is NaN. *)
Definition parseInt (s : string) : option Z :=
  let s := skip_space s in
  let '(negative, s) :=
    match s with
    | String "-" rest => (true, rest)
    | String "+" rest => (false, rest)
    | _ => (false, s)
    end in
  let '(radix, s) :=
    match s with
    | String "0" (String "x" rest) => (16, rest)
    | String "0" (String "X" rest) => (16, rest)
    | _ => (10, s)
    end in
  match digits radix s None with
  | Some n => Some (if negative : bool then - n else n)
  | None => None
  end.

(** ** The tables *)

Abbreviation UserId := string (only parsing).
Abbreviation ThreadId := string (only parsing).
Abbreviation Timestamp := Z (only parsing).

(** A row of [user_data]; its key (user_id, thread_id) is the key of the map. *)
Module UserData.
Record t : Type := mk {
  data_type : string;
  content : JSON;
  version : Z;
  updated_at : Timestamp
}.
End UserData.

(** A row of [data_backups] with the columns the statements of sync.ts use. *)
Module DataBackup.
Record t : Type := mk {
  id : string;
  user_id : UserId;
  thread_id : ThreadId;
  data_type : string;
  content : JSON;
  version : Z;
  created_at : Timestamp
}.
End DataBackup.

(** A row of [storage_stats]; its key is user_id. *)
Module StorageStats.
Record t : Type := mk {
  total_size_bytes : Z;
  thread_count : Z;
  last_updated : Timestamp
}.
End StorageStats.

Record DB : Type := mkDB {
  user_data : gmap (UserId * ThreadId) UserData.t;
  data_backups : list DataBackup.t;
  storage_stats : gmap UserId StorageStats.t
}.

Definition set_user_data (f : gmap (UserId * ThreadId) UserData.t -> gmap (UserId * ThreadId) UserData.t)
    (d : DB) : DB :=
  mkDB (f (user_data d)) (data_backups d) (storage_stats d).

Definition set_data_backups (f : list DataBackup.t -> list DataBackup.t) (d : DB) : DB :=
  mkDB (user_data d) (f (data_backups d)) (storage_stats d).

Definition set_storage_stats (f : gmap UserId StorageStats.t -> gmap UserId StorageStats.t)
    (d : DB) : DB :=
  mkDB (user_data d) (data_backups d) (f (storage_stats d)).

(** ** Statements, errors, the log *)

(** The statements sync.ts sends through [db.query], one name per SQL text. *)
Inductive Stmt : Type :=
| Begin
| Commit
| Rollback
| SelectUserData        (* SELECT * FROM user_data WHERE user_id = $1 AND thread_id = $2 *)
| BackupCurrent         (* INSERT INTO data_backups ... SELECT ... FROM user_data WHERE ... *)
| UpsertUserData        (* INSERT INTO user_data ... ON CONFLICT ... version = EXCLUDED.version *)
| SelectBackupHistory   (* SELECT * FROM data_backups WHERE ... ORDER BY created_at DESC LIMIT $3 *)
| SelectBackupById      (* SELECT * FROM data_backups WHERE id = $1 AND user_id = $2 *)
| InsertBackup          (* INSERT INTO data_backups ... VALUES (..., NOW()) *)
| UpsertRestored        (* INSERT INTO user_data ... ON CONFLICT ... version = EXCLUDED.version + 1 *)
| DeleteUserData        (* DELETE FROM user_data WHERE user_id = $1 AND thread_id = $2 *)
| SelectStorageStats    (* SELECT * FROM storage_stats WHERE user_id = $1 *)
| CountUserData         (* SELECT COUNT of the rows of user_data WHERE user_id = $1 *)
| CountBackups          (* SELECT COUNT of the rows of data_backups WHERE user_id = $1 *)
| SumUserData           (* SELECT SUM(LENGTH(content::text)) and the row count FROM user_data ... *)
| UpsertStorageStats.   (* INSERT INTO storage_stats ... ON CONFLICT (user_id) DO UPDATE ... *)

Inductive Err : Type :=
| Rejected (s : Stmt)            (* the store rejected the statement *)
| InAbortedTransaction (s : Stmt). (* sent after an earlier rejection in the same transaction *)

(** The values handlers pass to the logger. *)
Inductive Meta : Type :=
| MStr (s : string)
| MNum (n : Z)
| MBool (b : bool)
| MUndefined
| MErr (e : Err).

Inductive Level : Type := Info | Error.

Record LogEntry : Type := mkLog {
  level : Level;
  message : string;
  meta : list (string * Meta)
}.

(** ** What one request is given, and the state it runs on *)

Record Env : Type := mkEnv {
  fails : Stmt -> bool;           (* the statements the store rejects *)
  aborts_on_error : bool;         (* a rejection marks the open transaction aborted *)
  text_length : JSON -> Z;        (* LENGTH(content::text) *)
  db_now : Timestamp;             (* NOW() *)
  js_now : Timestamp;             (* new Date() *)
  gen_random_uuid : string;       (* the id the store gives a new backup row *)
  jsonb_in : string -> JSON;      (* the value a JSON column reads from a text it accepts *)
  array_literal : list JSON -> string;
                                  (* the array literal the driver sends for an array *)
  production : bool               (* process.env['NODE_ENV'] === 'production' *)
}.

Record World : Type := mkWorld {
  committed : DB;                 (* what later readers see *)
  working : option DB;            (* the uncommitted copy of an open transaction *)
  tx_aborted : bool;
  issued : list Stmt;             (* statements sent, oldest first *)
  logged : list LogEntry
}.

Definition idle (d : DB) : World := mkWorld d None false [] [].

Definition current (w : World) : DB := default (committed w) (working w).

Definition set_current (d : DB) (w : World) : World :=
  match working w with
  | Some _ => mkWorld (committed w) (Some d) (tx_aborted w) (issued w) (logged w)
  | None => mkWorld d None (tx_aborted w) (issued w) (logged w)
  end.

Definition record_stmt (s : Stmt) (w : World) : World :=
  mkWorld (committed w) (working w) (tx_aborted w) (issued w ++ [s])%list (logged w).

Definition mark_aborted (env : Env) (w : World) : World :=
  match working w with
  | Some _ =>
      mkWorld (committed w) (working w) (aborts_on_error env || tx_aborted w)
        (issued w) (logged w)
  | None => w
  end.

(** ** Computations that may throw *)

Inductive Outcome (A : Type) : Type :=
| Ok (a : A)
| Thrown (e : Err).
Arguments Ok {A} a.
Arguments Thrown {A} e.

Definition M (A : Type) : Type := Env -> World -> Outcome A * World.

Global Instance M_ret : MRet M := fun A (a : A) _ w => (Ok a, w).

Global Instance M_bind : MBind M :=
  fun A B (k : A -> M B) (m : M A) env w =>
    match m env w with
    | (Ok a, w') => k a env w'
    | (Thrown e, w') => (Thrown e, w')
    end.

Definition throw {A} (e : Err) : M A := fun _ w => (Thrown e, w).

Definition try_catch {A} (body : M A) (handler : Err -> M A) : M A :=
  fun env w =>
    match body env w with
    | (Ok a, w') => (Ok a, w')
    | (Thrown e, w') => handler e env w'
    end.

Definition ask : M Env := fun env w => (Ok env, w).

(** [logger.info] and [logger.error]: the call is recorded. *)
Definition logger (l : Level) (msg : string) (fields : list (string * Meta)) : M unit :=
  fun _ w =>
    (Ok tt, mkWorld (committed w) (working w) (tx_aborted w) (issued w)
              (logged w ++ [mkLog l msg fields])%list).

(** [await db.query(...)] for a data statement.  [run] is what the statement
    does to the tables when the store accepts it; [None] is a rejection the
    statement itself causes. *)
Definition query {A} (s : Stmt) (run : Env -> DB -> option (A * DB)) : M A :=
  fun env w =>
    let w := record_stmt s w in
    if tx_aborted w then (Thrown (InAbortedTransaction s), w)
    else if fails env s then (Thrown (Rejected s), mark_aborted env w)
    else
      match run env (current w) with
      | Some (a, d) => (Ok a, set_current d w)
      | None => (Thrown (Rejected s), mark_aborted env w)
      end.

Definition begin_tx : M unit :=
  fun env w =>
    let w := record_stmt Begin w in
    if fails env Begin then (Thrown (Rejected Begin), w)
    else (Ok tt, mkWorld (committed w) (Some (current w)) false (issued w) (logged w)).

(** COMMIT publishes the working copy, unless the transaction is marked
    aborted, in which case it ends the transaction like ROLLBACK. *)
Definition commit_tx : M unit :=
  fun env w =>
    let w := record_stmt Commit w in
    if fails env Commit then (Thrown (Rejected Commit), w)
    else
      let d := if tx_aborted w then committed w else current w in
      (Ok tt, mkWorld d None false (issued w) (logged w)).

Definition rollback_tx : M unit :=
  fun env w =>
    let w := record_stmt Rollback w in
    if fails env Rollback then (Thrown (Rejected Rollback), w)
    else (Ok tt, mkWorld (committed w) None false (issued w) (logged w)).

(** ** The statements of sync.ts *)

Definition select_user_data (userId : UserId) (threadId : ThreadId) : M (list UserData.t) :=
  query SelectUserData
    (fun _ d => Some (option_list (user_data d !! (userId, threadId)), d)).

(** Save's backup: the rows of [user_data] for the key are copied, the
    backup's [created_at] is the row's [updated_at]. *)
Definition backup_current (userId : UserId) (threadId : ThreadId) : M unit :=
  query BackupCurrent
    (fun env d =>
       let copied :=
         (fun row =>
            DataBackup.mk (gen_random_uuid env) userId threadId
              (UserData.data_type row) (UserData.content row) (UserData.version row)
              (UserData.updated_at row))
           <$> option_list (user_data d !! (userId, threadId)) in
       Some (tt, set_data_backups (fun b => (b ++ copied)%list) d)).

Definition upsert_user_data (userId : UserId) (threadId : ThreadId)
    (dataType : string) (content : JSON) (version : Z) : M unit :=
  query UpsertUserData
    (fun env d =>
       Some (tt, set_user_data
                   <[(userId, threadId) := UserData.mk dataType content version (db_now env)]> d)).

Definition matches_thread (userId : UserId) (threadId : ThreadId) (b : DataBackup.t) : bool :=
  bool_decide (DataBackup.user_id b = userId) && bool_decide (DataBackup.thread_id b = threadId).

Definition newer_first (a b : DataBackup.t) : Prop :=
  DataBackup.created_at b <= DataBackup.created_at a.

Global Instance newer_first_dec : RelDecision newer_first :=
  fun a b => Z_le_dec (DataBackup.created_at b) (DataBackup.created_at a).

(** The store rejects a LIMIT that is NaN or negative. *)
Definition select_backup_history (userId : UserId) (threadId : ThreadId)
    (limit : option Z) : M (list DataBackup.t) :=
  query SelectBackupHistory
    (fun _ d =>
       match limit with
       | Some n =>
           if n <? 0 then None
           else
             Some (take (Z.to_nat n)
                     (merge_sort newer_first
                        (filter (fun b => matches_thread userId threadId b = true)
                           (data_backups d))),
                   d)
       | None => None
       end).

Definition select_backup_by_id (backupId : string) (userId : UserId) : M (list DataBackup.t) :=
  query SelectBackupById
    (fun _ d =>
       Some (filter (fun b => DataBackup.id b = backupId /\ DataBackup.user_id b = userId)
               (data_backups d),
             d)).

(** A value handed to the driver as the parameter of a JSON column, without
    [JSON.stringify].  node-postgres converts it by its own rules
    ([prepareValue]): an object is serialised, a number or a boolean is
    printed, null is NULL, a string is sent as its bare text and an array as
    an array literal, which is [{}] for the empty array.  [pg_param] is the
    value the column holds once the store has accepted the statement; a text
    the column cannot read (an array literal with elements, a string that is
    not JSON text) is a rejection of the statement, one of [fails]. *)
Definition pg_param (env : Env) (value : JSON) : JSON :=
  match value with
  | JNull | JBool _ | JNum _ | JObj _ => value
  | JStr s => jsonb_in env s
  | JArr [] => JObj []
  | JArr items => jsonb_in env (array_literal env items)
  end.

(** The backup Restore and Delete insert: [content] is the parsed value of
    the row they read, handed to the driver as it is. *)
Definition insert_backup (userId : UserId) (threadId : ThreadId)
    (dataType : string) (content : JSON) (version : Z) : M unit :=
  query InsertBackup
    (fun env d =>
       Some (tt, set_data_backups
                   (fun b => (b ++ [DataBackup.mk (gen_random_uuid env) userId threadId
                                      dataType (pg_param env content) version
                                      (db_now env)])%list) d)).

(** Restore's upsert: the inserted row carries the given version, the
    updated row the given version plus one.  [content] is the parsed value
    of the backup, handed to the driver as it is. *)
Definition upsert_restored (userId : UserId) (threadId : ThreadId)
    (dataType : string) (content : JSON) (version : Z) : M unit :=
  query UpsertRestored
    (fun env d =>
       let written :=
         match user_data d !! (userId, threadId) with
         | Some _ => UserData.mk dataType (pg_param env content) (version + 1) (db_now env)
         | None => UserData.mk dataType (pg_param env content) version (db_now env)
         end in
       Some (tt, set_user_data <[(userId, threadId) := written]> d)).

(** Resolves to [rowCount]. *)
Definition delete_user_data (userId : UserId) (threadId : ThreadId) : M Z :=
  query DeleteUserData
    (fun _ d =>
       Some (Z.of_nat (length (option_list (user_data d !! (userId, threadId)))),
             set_user_data (delete (userId, threadId)) d)).

Definition select_storage_stats (userId : UserId) : M (list StorageStats.t) :=
  query SelectStorageStats
    (fun _ d => Some (option_list (storage_stats d !! userId), d)).

Definition rows_of_user (userId : UserId) (d : DB) : list UserData.t :=
  snd <$> filter (fun kv => fst (fst kv) = userId) (map_to_list (user_data d)).

Definition count_user_data (userId : UserId) : M Z :=
  query CountUserData
    (fun _ d => Some (Z.of_nat (length (rows_of_user userId d)), d)).

Definition count_backups (userId : UserId) : M Z :=
  query CountBackups
    (fun _ d =>
       Some (Z.of_nat (length (filter (fun b => DataBackup.user_id b = userId) (data_backups d))),
             d)).

(** SUM over no rows is NULL ([None]). *)
Definition sum_user_data (userId : UserId) : M (option Z * Z) :=
  query SumUserData
    (fun env d =>
       let rows := rows_of_user userId d in
       let total :=
         match rows with
         | [] => None
         | _ => Some (foldr Z.add 0 ((fun r => text_length env (UserData.content r)) <$> rows))
         end in
       Some ((total, Z.of_nat (length rows)), d)).

Definition upsert_storage_stats (userId : UserId) (totalSize threadCount : Z) : M unit :=
  query UpsertStorageStats
    (fun env d =>
       Some (tt, set_storage_stats
                   <[userId := StorageStats.mk totalSize threadCount (db_now env)]> d)).

(** ** Requests and responses *)

(** The body of POST / ([SyncRequest] of types/database.ts, with [force]).
    [None] is a property that is missing. *)
Module SyncRequest.
Record t : Type := mk {
  threadId : option string;
  dataType : option string;
  content : option JSON;
  version : option Z;
  force : option bool
}.
End SyncRequest.

(** The JSON bodies the routes answer with, one constructor per shape. *)
Inductive Body : Type :=
| ErrorBody (error : string)
    (* { success: false, error } *)
| ConflictBody (error : string) (serverVersion : Z) (serverData : JSON)
    (serverUpdatedAt : Timestamp)
    (* { success: false, conflict: true, error, serverVersion, serverData, serverUpdatedAt } *)
| SyncedBody (message : string) (version : Z) (updated_at : Timestamp)
    (* { success: true, message, version, updated_at } *)
| LoadedBody (data : JSON) (version : Z) (updated_at : Timestamp) (data_type : string)
    (* { success: true, data, version, updated_at, data_type } *)
| HistoryBody (current : option UserData.t) (history : list DataBackup.t)
    (* { success: true, data: { current, history } } *)
| RestoredBody (message : string) (version : Z) (restored_at : Timestamp)
    (* { success: true, message, version, restored_at } *)
| DeletedBody (message : string)
    (* { success: true, message } *)
| StatsBody (storageStats : option StorageStats.t) (threadCount backupCount : Z)
    (* { success: true, data: { storageStats, threadCount, backupCount } } *)
| RouteNotFoundBody.
    (* { error: 'Not Found', message } of the application's 404 handler *)

Record Response : Type := respond {
  status : Z;
  body : Body
}.

(** ** The handlers of sync.ts *)

Definition data_types : list string := ["spreadsheet"; "document"; "both"].

Definition includes (xs : list string) (x : string) : bool := bool_decide (x ∈ xs).

(** [updateStorageStats]: its own try / catch logs a failure and returns. *)
Definition updateStorageStats (userId : UserId) : M unit :=
  try_catch
    (stats ← sum_user_data userId;
     let totalSize := default 0 (fst stats) in
     let threadCount := snd stats in
     upsert_storage_stats userId totalSize threadCount)
    (fun error =>
       logger Error "Failed to update storage stats"
         [("error", MErr error); ("userId", MStr userId)]).

Definition meta_opt (x : option string) : Meta :=
  match x with
  | Some s => MStr s
  | None => MUndefined
  end.

(** POST / *)
Definition save (userId : UserId) (req : SyncRequest.t) : M Response :=
  let version := default 1 (SyncRequest.version req) in
  let force := default false (SyncRequest.force req) in
  try_catch
    (if js_not truthy_str (SyncRequest.threadId req)
        || js_not truthy_str (SyncRequest.dataType req)
        || js_not truthy (SyncRequest.content req)
     then
       mret (respond 400 (ErrorBody "Missing required fields: threadId, dataType, content"))
     else
       let threadId := default "" (SyncRequest.threadId req) in
       let dataType := default "" (SyncRequest.dataType req) in
       let content := default JNull (SyncRequest.content req) in
       if negb (includes data_types dataType) then
         mret (respond 400
                 (ErrorBody "Invalid dataType. Must be: spreadsheet, document, or both"))
       else
         existingData ← select_user_data userId threadId;
         let transaction : M Response :=
           begin_tx;;
           try_catch
             ((if (0 <? length existingData)%nat
               then backup_current userId threadId
               else mret tt);;
              upsert_user_data userId threadId dataType content version;;
              updateStorageStats userId;;
              commit_tx;;
              logger Info "Data synced successfully"
                [("userId", MStr userId); ("threadId", MStr threadId);
                 ("dataType", MStr dataType); ("version", MNum version);
                 ("force", MBool force);
                 ("isNewRecord", MBool (length existingData =? 0)%nat)];;
              env ← ask;
              mret (respond 200 (SyncedBody "Data synced successfully" version (js_now env))))
             (fun error => rollback_tx;; throw error) in
         match existingData with
         | existing :: _ =>
             if negb force && (UserData.version existing >? version) then
               mret (respond 409
                       (ConflictBody "Version conflict"
                          (UserData.version existing)
                          (UserData.content existing)
                          (UserData.updated_at existing)))
             else transaction
         | [] => transaction
         end)
    (fun error =>
       logger Error "Sync failed"
         [("error", MErr error); ("userId", MStr userId);
          ("threadId", meta_opt (SyncRequest.threadId req));
          ("dataType", meta_opt (SyncRequest.dataType req))];;
       mret (respond 500 (ErrorBody "Internal server error during sync"))).

(** GET /:threadId *)
Definition load (userId : UserId) (threadId : ThreadId) (query_dataType : option string)
    : M Response :=
  let dataType := default "both" query_dataType in
  try_catch
    (if negb (includes data_types dataType) then
       mret (respond 400
               (ErrorBody "Invalid dataType. Must be: spreadsheet, document, or both"))
     else
       result ← select_user_data userId threadId;
       match result with
       | [] => mret (respond 404 (ErrorBody "Data not found"))
       | data :: _ =>
           logger Info "Data retrieved successfully"
             [("userId", MStr userId); ("threadId", MStr threadId);
              ("dataType", MStr dataType); ("version", MNum (UserData.version data))];;
           mret (respond 200
                   (LoadedBody (UserData.content data) (UserData.version data)
                      (UserData.updated_at data) (UserData.data_type data)))
       end)
    (fun error =>
       logger Error "Failed to retrieve data"
         [("error", MErr error); ("userId", MStr userId); ("threadId", MStr threadId);
          ("dataType", MStr dataType)];;
       mret (respond 500 (ErrorBody "Internal server error while retrieving data"))).

(** GET /:threadId/history *)
Definition history (userId : UserId) (threadId : ThreadId) (query_limit : option string)
    : M Response :=
  let limit :=
    match query_limit with
    | Some s => parseInt s
    | None => Some 10
    end in
  try_catch
    (mainData ← select_user_data userId threadId;
     history ← select_backup_history userId threadId limit;
     logger Info "Version history retrieved"
       [("userId", MStr userId); ("threadId", MStr threadId);
        ("historyCount", MNum (Z.of_nat (length history)))];;
     mret (respond 200 (HistoryBody (head mainData) history)))
    (fun error =>
       logger Error "Failed to retrieve version history"
         [("error", MErr error); ("userId", MStr userId); ("threadId", MStr threadId)];;
       mret (respond 500 (ErrorBody "Internal server error while retrieving history"))).

(** The backup statement Restore and Delete send for the current row. *)
Definition backup_before (userId : UserId) (threadId : ThreadId)
    (currentData : list UserData.t) : M unit :=
  match currentData with
  | row :: _ =>
      insert_backup userId threadId (UserData.data_type row) (UserData.content row)
        (UserData.version row)
  | [] => mret tt
  end.

(** POST /:threadId/restore *)
Definition restore (userId : UserId) (threadId : ThreadId) (backupId : option string)
    : M Response :=
  try_catch
    (if js_not truthy_str backupId then
       mret (respond 400 (ErrorBody "backupId is required"))
     else
       backup ← select_backup_by_id (default "" backupId) userId;
       match backup with
       | [] => mret (respond 404 (ErrorBody "Backup not found"))
       | backupData :: _ =>
           begin_tx;;
           try_catch
             (currentData ← select_user_data userId threadId;
              backup_before userId threadId currentData;;
              upsert_restored userId threadId (DataBackup.data_type backupData)
                (DataBackup.content backupData) (DataBackup.version backupData);;
              updateStorageStats userId;;
              commit_tx;;
              logger Info "Data restored from backup"
                [("userId", MStr userId); ("threadId", MStr threadId);
                 ("backupId", meta_opt backupId);
                 ("restoredVersion", MNum (DataBackup.version backupData))];;
              env ← ask;
              mret (respond 200
                      (RestoredBody "Data restored successfully"
                         (DataBackup.version backupData) (js_now env))))
             (fun error => rollback_tx;; throw error)
       end)
    (fun error =>
       logger Error "Failed to restore from backup"
         [("error", MErr error); ("userId", MStr userId); ("threadId", MStr threadId);
          ("backupId", meta_opt backupId)];;
       mret (respond 500 (ErrorBody "Internal server error during restore"))).

(** DELETE /:threadId *)
Definition delete_data (userId : UserId) (threadId : ThreadId) : M Response :=
  try_catch
    (begin_tx;;
     try_catch
       (currentData ← select_user_data userId threadId;
        backup_before userId threadId currentData;;
        rowCount ← delete_user_data userId threadId;
        updateStorageStats userId;;
        commit_tx;;
        logger Info "Data deleted successfully"
          [("userId", MStr userId); ("threadId", MStr threadId);
           ("wasDeleted", MBool (rowCount >? 0))];;
        mret (respond 200 (DeletedBody "Data deleted successfully")))
       (fun error => rollback_tx;; throw error))
    (fun error =>
       logger Error "Failed to delete data"
         [("error", MErr error); ("userId", MStr userId); ("threadId", MStr threadId)];;
       mret (respond 500 (ErrorBody "Internal server error during deletion"))).

(** GET /stats *)
Definition stats (userId : UserId) : M Response :=
  try_catch
    (stats ← select_storage_stats userId;
     threadCount ← count_user_data userId;
     backupCount ← count_backups userId;
     logger Info "Storage stats retrieved"
       [("userId", MStr userId); ("threadCount", MNum threadCount);
        ("backupCount", MNum backupCount)];;
     mret (respond 200 (StatsBody (head stats) threadCount backupCount)))
    (fun error =>
       logger Error "Failed to retrieve storage stats"
         [("error", MErr error); ("userId", MStr userId)];;
       mret (respond 500 (ErrorBody "Internal server error while retrieving stats"))).

(** ** The router *)

Inductive Method : Type := GET | POST | DELETE | PUT.

Definition Method_eqb (a b : Method) : bool :=
  match a, b with
  | GET, GET | POST, POST | DELETE, DELETE | PUT, PUT => true
  | _, _ => false
  end.

(** A request below the mount point /api/sync, after [requireAuth]: [path]
    lists the segments of the URL as they were sent (percent-escapes not
    decoded), [user] is [req.user.id]. *)
Record Request : Type := mkRequest {
  method : Method;
  path : list string;
  query_dataType : option string;
  query_limit : option string;
  body_sync : SyncRequest.t;
  body_backupId : option string;
  user : UserId
}.

Inductive Segment : Type :=
| Lit (s : string)
| Param (name : string).

Definition to_lower_ascii (c : ascii) : ascii :=
  let n := nat_of_ascii c in
  if (Nat.leb 65 n && Nat.leb n 90)%bool then ascii_of_nat (n + 32) else c.

Fixpoint to_lower (s : string) : string :=
  match s with
  | String c rest => String (to_lower_ascii c) (to_lower rest)
  | EmptyString => EmptyString
  end.

(** *** Percent-decoding of a route parameter ([decodeURIComponent])

    Strings hold the UTF-8 bytes of the JavaScript string.  An escape is a
    percent sign and two hexadecimal digits; the escaped bytes must spell
    well-formed UTF-8, each character complete before the next plain
    character.  [None] is a URIError. *)

Inductive UriToken : Type :=
| Plain (c : ascii)
| Escaped (byte : Z)
| Malformed.

Definition hex_value (c : ascii) : option Z :=
  match digit_value c with
  | Some d => if d <? 16 then Some d else None
  | None => None
  end.

Fixpoint uri_tokens (s : string) : list UriToken :=
  match s with
  | EmptyString => []
  | String "%" (String h (String l rest)) =>
      match hex_value h, hex_value l with
      | Some a, Some b => Escaped (16 * a + b) :: uri_tokens rest
      | _, _ => [Malformed]
      end
  | String "%" _ => [Malformed]
  | String c rest => Plain c :: uri_tokens rest
  end.

(** For the first byte of a character of more than one byte: how many bytes
    follow, and the range of the next one (no overlong form, no surrogate,
    nothing above U+10FFFF). *)
Definition utf8_lead (b : Z) : option (nat * Z * Z) :=
  if (194 <=? b) && (b <=? 223) then Some (1%nat, 128, 191)
  else if b =? 224 then Some (2%nat, 160, 191)
  else if b =? 237 then Some (2%nat, 128, 159)
  else if (225 <=? b) && (b <=? 239) then Some (2%nat, 128, 191)
  else if b =? 240 then Some (3%nat, 144, 191)
  else if b =? 244 then Some (3%nat, 128, 143)
  else if (241 <=? b) && (b <=? 243) then Some (3%nat, 128, 191)
  else None.

Definition byte_char (b : Z) : ascii := ascii_of_nat (Z.to_nat b).

(** [due] bytes of the current character are still to come, the next one
    between [lo] and [hi]. *)
Fixpoint decode_tokens (due : nat) (lo hi : Z) (tokens : list UriToken) : option string :=
  match tokens with
  | [] =>
      match due with
      | O => Some EmptyString
      | S _ => None
      end
  | Plain c :: tokens =>
      match due with
      | O => String c <$> decode_tokens O 128 191 tokens
      | S _ => None
      end
  | Escaped b :: tokens =>
      match due with
      | O =>
          if b <? 128 then String (byte_char b) <$> decode_tokens O 128 191 tokens
          else
            match utf8_lead b with
            | Some (n, lo, hi) => String (byte_char b) <$> decode_tokens n lo hi tokens
            | None => None
            end
      | S due =>
          if (lo <=? b) && (b <=? hi)
          then String (byte_char b) <$> decode_tokens due 128 191 tokens
          else None
      end
  | Malformed :: _ => None
  end.

Definition decodeURIComponent (s : string) : option string :=
  decode_tokens O 128 191 (uri_tokens s).

(** *** Matching a path against a route *)

(** The regular expression of a route, applied to the path as it was sent:
    a literal segment matches without regard to case, a named parameter
    captures any non-empty segment. *)
Fixpoint captures (pattern : list Segment) (segments : list string)
    : option (list (string * string)) :=
  match pattern, segments with
  | [], [] => Some []
  | Lit l :: pattern, seg :: segments =>
      if String.eqb (to_lower l) (to_lower seg) then captures pattern segments else None
  | Param name :: pattern, seg :: segments =>
      if truthy_str seg
      then (fun params => (name, seg) :: params) <$> captures pattern segments
      else None
  | _, _ => None
  end.

Inductive Match : Type :=
| NoMatch
| Undecodable (value : string)   (* the error 'Failed to decode param', status 400 *)
| Matched (params : list (string * string)).

(** The captured values are decoded in order; the first that cannot be
    decoded is the error. *)
Fixpoint decode_params (captured : list (string * string)) : Match :=
  match captured with
  | [] => Matched []
  | (name, value) :: captured =>
      match decodeURIComponent value with
      | Some decoded =>
          match decode_params captured with
          | Matched params => Matched ((name, decoded) :: params)
          | other => other
          end
      | None => Undecodable value
      end
  end.

(** [Layer.prototype.match] of Express. *)
Definition match_path (pattern : list Segment) (segments : list string) : Match :=
  match captures pattern segments with
  | Some captured => decode_params captured
  | None => NoMatch
  end.

Definition param (name : string) (params : list (string * string)) : string :=
  default "" (snd <$> List.find (fun p => String.eqb (fst p) name) params).

Record Route : Type := mkRoute {
  route_method : Method;
  route_path : list Segment;
  route_handler : Request -> list (string * string) -> M Response
}.

(** The routes of sync.ts in the order they are registered. *)
Definition router : list Route :=
  [ mkRoute POST []
      (fun req _ => save (user req) (body_sync req));
    mkRoute GET [Param "threadId"]
      (fun req params => load (user req) (param "threadId" params) (query_dataType req));
    mkRoute GET [Param "threadId"; Lit "history"]
      (fun req params => history (user req) (param "threadId" params) (query_limit req));
    mkRoute POST [Param "threadId"; Lit "restore"]
      (fun req params => restore (user req) (param "threadId" params) (body_backupId req));
    mkRoute DELETE [Param "threadId"]
      (fun req params => delete_data (user req) (param "threadId" params));
    mkRoute GET [Lit "stats"]
      (fun req _ => stats (user req)) ].

Definition method_name (m : Method) : string :=
  match m with
  | GET => "GET"
  | POST => "POST"
  | DELETE => "DELETE"
  | PUT => "PUT"
  end.

Inductive Routed : Type :=
| Handled (r : Route) (params : list (string * string))
| DecodeError (value : string)
| NotRouted.

(** The loop of the Express router over its routes.  A route is tried on
    its path first and on its method after; [pending] is the first decoding
    error met ([layerError]), after which no route matches any more. *)
Fixpoint find_route_after (pending : option string) (routes : list Route) (m : Method)
    (segments : list string) : Routed :=
  match routes with
  | r :: routes =>
      match match_path (route_path r) segments with
      | NoMatch => find_route_after pending routes m segments
      | Undecodable value => find_route_after (Some (default value pending)) routes m segments
      | Matched params =>
          match pending with
          | Some _ => find_route_after pending routes m segments
          | None =>
              if Method_eqb (route_method r) m then Handled r params
              else find_route_after pending routes m segments
          end
      end
  | [] =>
      match pending with
      | Some value => DecodeError value
      | None => NotRouted
      end
  end.

Definition find_route (routes : list Route) (m : Method) (segments : list string) : Routed :=
  find_route_after None routes m segments.

(** The application's error handler (index.ts): [stack], [url], [ip] and
    [userAgent] of its log entry are not kept. *)
Definition error_handler (err_status : Z) (err_message : string) (m : Method) : M Response :=
  logger Error "Unhandled error"
    [("error", MStr err_message); ("method", MStr (method_name m))];;
  env ← ask;
  mret (respond err_status
          (ErrorBody (if production env then "Internal server error" else err_message))).

Definition decode_failure (value : string) : string :=
  "Failed to decode param '" ++ value ++ "'".

(** The first route that matches handles the request (no handler of sync.ts
    calls [next]); a parameter that cannot be decoded goes to the
    application's error handler with status 400; with no route, the
    application's 404 handler answers. *)
Definition dispatch (routes : list Route) (req : Request) : M Response :=
  match find_route routes (method req) (path req) with
  | Handled r params => route_handler r req params
  | DecodeError value => error_handler 400 (decode_failure value) (method req)
  | NotRouted => mret (respond 404 RouteNotFoundBody)
  end.

Definition handle (req : Request) : M Response := dispatch router req.

(** ** Running requests *)

Definition run {A} (m : M A) (env : Env) (d : DB) : Outcome A * World := m env (idle d).

(** The response of a handler and the tables later readers see. *)
Definition response_of (r : Outcome Response * World) : option Response :=
  match fst r with
  | Ok resp => Some resp
  | Thrown _ => None
  end.

Definition stored (r : Outcome Response * World) : DB := committed (snd r).

(** ** Sample data *)

Definition no_faults : Stmt -> bool := fun _ => false.

(** A reading of the texts [null], [true], [false], [{}] and of decimal
    numerals; the store rejects most other texts. *)
Fixpoint all_digits (s : string) : bool :=
  match s with
  | EmptyString => true
  | String c rest =>
      (Nat.leb 48 (nat_of_ascii c) && Nat.leb (nat_of_ascii c) 57 && all_digits rest)%bool
  end.

Definition sample_jsonb_in (s : string) : JSON :=
  if String.eqb s "true" then JBool true
  else if String.eqb s "false" then JBool false
  else if String.eqb s "{}" then JObj []
  else if all_digits s then
    match digits 10 s None with
    | Some n => JNum n
    | None => JNull
    end
  else JNull.

Definition sample_array_literal (items : list JSON) : string :=
  match items with
  | [] => "{}"
  | _ => "{...}"
  end.

Definition sample_env : Env :=
  mkEnv no_faults true (fun _ => 8) 100 101 "b-new" sample_jsonb_in sample_array_literal false.

Definition doc_a1 : JSON := JObj [("a", JNum 1)].
Definition doc_a2 : JSON := JObj [("a", JNum 2)].

Definition empty_db : DB := mkDB ∅ [] ∅.

Definition db_v1 : DB :=
  mkDB {[ ("u1", "t1") := UserData.mk "document" doc_a1 1 50 ]} []
       {[ "u1" := StorageStats.mk 8 1 50 ]}.

Definition db_v3 : DB :=
  mkDB {[ ("u1", "t1") := UserData.mk "document" doc_a2 3 60 ]}
       [DataBackup.mk "b-1" "u1" "t1" "document" doc_a1 1 50]
       {[ "u1" := StorageStats.mk 8 1 60 ]}.

(** A thread whose content is the empty array, as a Save with content [[]]
    leaves it. *)
Definition db_list : DB :=
  mkDB {[ ("u1", "t1") := UserData.mk "document" (JArr []) 1 50 ]} []
       {[ "u1" := StorageStats.mk 8 1 50 ]}.

Definition save_req (v : Z) (c : JSON) : SyncRequest.t :=
  SyncRequest.mk (Some "t1") (Some "document") (Some c) (Some v) None.

(** ** Vocabulary of the statements below *)

(** The checks Save makes before it asks the store. *)
Definition passes_validation (req : SyncRequest.t) : bool :=
  negb (js_not truthy_str (SyncRequest.threadId req)
        || js_not truthy_str (SyncRequest.dataType req)
        || js_not truthy (SyncRequest.content req))
  && includes data_types (default "" (SyncRequest.dataType req)).

(** The row a Save writes. *)
Definition written (env : Env) (req : SyncRequest.t) : UserData.t :=
  UserData.mk (default "" (SyncRequest.dataType req))
    (default JNull (SyncRequest.content req))
    (default 1 (SyncRequest.version req))
    (db_now env).

(** The three operations that change [user_data]. *)
Inductive Op : Type :=
| OpSave (req : SyncRequest.t)
| OpRestore (threadId : ThreadId) (backupId : option string)
| OpDelete (threadId : ThreadId).

Definition perform (userId : UserId) (op : Op) : M Response :=
  match op with
  | OpSave req => save userId req
  | OpRestore threadId backupId => restore userId threadId backupId
  | OpDelete threadId => delete_data userId threadId
  end.

Definition op_thread (op : Op) : ThreadId :=
  match op with
  | OpSave req => default "" (SyncRequest.threadId req)
  | OpRestore threadId _ => threadId
  | OpDelete threadId => threadId
  end.

(** The backup row that holds the state [row] of a thread. *)
Definition capture (backupId : string) (userId : UserId) (threadId : ThreadId)
    (created_at : Timestamp) (row : UserData.t) : DataBackup.t :=
  DataBackup.mk backupId userId threadId (UserData.data_type row) (UserData.content row)
    (UserData.version row) created_at.

(** A row with its content as the driver passes it on. *)
Definition passed_on (env : Env) (row : UserData.t) : UserData.t :=
  UserData.mk (UserData.data_type row) (pg_param env (UserData.content row))
    (UserData.version row) (UserData.updated_at row).

(** Save stamps its backup with the row's [updated_at], Restore and Delete
    with NOW(). *)
Definition backup_stamp (env : Env) (op : Op) (row : UserData.t) : Timestamp :=
  match op with
  | OpSave _ => UserData.updated_at row
  | OpRestore _ _ | OpDelete _ => db_now env
  end.

(** The backup row an operation writes for the row it found: Save copies
    the row inside the store, Restore and Delete hand its content to the
    driver. *)
Definition backup_of (env : Env) (userId : UserId) (op : Op) (row : UserData.t)
    : DataBackup.t :=
  capture (gen_random_uuid env) userId (op_thread op) (backup_stamp env op row)
    (match op with
     | OpSave _ => row
     | OpRestore _ _ | OpDelete _ => passed_on env row
     end).

(** The statements a successful operation sends, in order. *)
Definition statements_of (op : Op) (existed : bool) : list Stmt :=
  match op with
  | OpSave _ =>
      [SelectUserData; Begin] ++ (if existed then [BackupCurrent] else [])
      ++ [UpsertUserData; SumUserData; UpsertStorageStats; Commit]
  | OpRestore _ _ =>
      [SelectBackupById; Begin; SelectUserData] ++ (if existed then [InsertBackup] else [])
      ++ [UpsertRestored; SumUserData; UpsertStorageStats; Commit]
  | OpDelete _ =>
      [Begin; SelectUserData] ++ (if existed then [InsertBackup] else [])
      ++ [DeleteUserData; SumUserData; UpsertStorageStats; Commit]
  end%list.

(** The operation gets as far as its transaction: a Save is well formed and
    passes the conflict check, a Restore names a backup of the user. *)
Definition proceeds (userId : UserId) (op : Op) (d : DB) : bool :=
  match op with
  | OpSave req =>
      passes_validation req
      && (default false (SyncRequest.force req)
          || match user_data d !! (userId, op_thread op) with
             | Some row => UserData.version row <=? default 1 (SyncRequest.version req)
             | None => true
             end)
  | OpRestore _ backupId =>
      match backupId with
      | Some id =>
          truthy_str id
          && (0 <? length (filter (fun b => DataBackup.id b = id /\ DataBackup.user_id b = userId)
                             (data_backups d)))%nat
      | None => false
      end
  | OpDelete _ => true
  end.

(** A sequence of Save calls of one user, each with its own environment. *)
Fixpoint run_saves (userId : UserId) (calls : list (Env * SyncRequest.t)) (d : DB) : DB :=
  match calls with
  | [] => d
  | (env, req) :: calls => run_saves userId calls (stored (run (save userId req) env d))
  end.

(** Every call is forced or carries a version not below the one stored
    before it ([prior], then the version of the call before). *)
Fixpoint versions_accepted (prior : option Z) (calls : list (Env * SyncRequest.t)) : Prop :=
  match calls with
  | [] => True
  | (_, req) :: calls =>
      (default false (SyncRequest.force req) = true
       \/ forall v, prior = Some v -> v <= default 1 (SyncRequest.version req))
      /\ versions_accepted (Some (default 1 (SyncRequest.version req))) calls
  end.

(** One backup for each state a call of the sequence overwrites: the state
    found first ([prior]) and the row of every call but the last. *)
Fixpoint overwritten_states (userId : UserId) (threadId : ThreadId)
    (prior : option UserData.t) (calls : list (Env * SyncRequest.t)) : list DataBackup.t :=
  match calls with
  | [] => []
  | (env, req) :: calls =>
      ((fun row => capture (gen_random_uuid env) userId threadId (UserData.updated_at row) row)
         <$> option_list prior)
      ++ overwritten_states userId threadId (Some (written env req)) calls
  end%list.

(** The first segment of the path, the only one the routes of sync.ts read
    as a parameter, can be decoded. *)
Definition first_decodes (segments : list string) : bool :=
  match segments with
  | seg :: _ =>
      match decodeURIComponent seg with
      | Some _ => true
      | None => false
      end
  | [] => true
  end.

Definition is_stats_stmt (s : Stmt) : bool :=
  match s with
  | SumUserData | UpsertStorageStats => true
  | _ => false
  end.

(** Some statement that was sent, other than the two of
    [updateStorageStats], was rejected. *)
Definition rejected_outside_stats (env : Env) (w : World) : bool :=
  existsb (fun s => fails env s && negb (is_stats_stmt s)) (issued w).

Definition with_faults (f : Stmt -> bool) (env : Env) : Env :=
  mkEnv f (aborts_on_error env) (text_length env) (db_now env) (js_now env)
    (gen_random_uuid env) (jsonb_in env) (array_literal env) (production env).

Definition stats_fault : Stmt -> bool :=
  fun s => match s with UpsertStorageStats => true | _ => false end.

(** An environment whose store rejects the upsert of [storage_stats] only. *)
Definition stats_fault_env (aborts : bool) : Env :=
  mkEnv stats_fault aborts (fun _ => 8) 100 101 "b-new" sample_jsonb_in sample_array_literal
    false.

(** An environment whose store rejects the DELETE on [user_data] only. *)
Definition delete_fault_env : Env :=
  mkEnv (fun s => match s with DeleteUserData => true | _ => false end)
    true (fun _ => 8) 100 101 "b-new" sample_jsonb_in sample_array_literal false.

(** Two threads of one user. *)
Definition db_two : DB :=
  mkDB {[ ("u1", "t1") := UserData.mk "document" doc_a2 3 60;
          ("u1", "t2") := UserData.mk "spreadsheet" doc_a1 1 40 ]}
       [] {[ "u1" := StorageStats.mk 16 2 60 ]}.

(** The same clocks a moment later, for a second call. *)
Definition later_env : Env :=
  mkEnv no_faults true (fun _ => 8) 200 201 "b-later" sample_jsonb_in sample_array_literal
    false.

(** The statistics row [updateStorageStats] computes from the rows of a user. *)
Definition recomputed (env : Env) (userId : string) (d : DB) : StorageStats.t :=
  StorageStats.mk
    (foldr Z.add 0 ((fun r => text_length env (UserData.content r)) <$> rows_of_user userId d))
    (Z.of_nat (length (rows_of_user userId d)))
    (db_now env).

(** The rows [select_backup_history] returns for an accepted limit. *)
Definition history_rows (userId threadId : string) (n : Z) (d : DB) : list DataBackup.t :=
  take (Z.to_nat n)
    (merge_sort newer_first
       (filter (fun b => matches_thread userId threadId b = true) (data_backups d))).

(** ** The authentication middleware (src/middleware/auth.ts) *)

(** A row of [users] with the columns the middleware selects. *)
Module User.
Record t : Type := mk {
  id : string;
  email : string;
  first_name : option string;
  last_name : option string
}.
End User.

(** A row of [user_sessions]. *)
Module UserSession.
Record t : Type := mk {
  user_id : string;
  token_hash : string;
  created_at : Timestamp;
  expires_at : Timestamp;
  last_used : Timestamp;
  user_agent : option string;
  ip_address : option string
}.
End UserSession.

(** What [jwt.verify] returns for a token it accepts.  A payload without
    [userId] ([None]) selects no user. *)
Module TokenPayload.
Record t : Type := mk {
  userId : option string;
  email : option string
}.
End TokenPayload.

(** The statements of auth.ts and of the logout route. *)
Inductive AuthStmt : Type :=
| SelectUserById           (* SELECT id, email, first_name, last_name FROM users WHERE id = $1 *)
| TouchSession             (* UPDATE user_sessions SET last_used = NOW() WHERE token_hash = $1 *)
| InsertSession            (* INSERT INTO user_sessions (...) VALUES ($1, $2, NOW(), $3, $4, $5) *)
| DeleteExpiredSessions    (* DELETE FROM user_sessions WHERE expires_at < NOW() RETURNING id *)
| DeleteSession.           (* DELETE FROM user_sessions WHERE token_hash = $1 *)

(** The calls to the logger, one constructor per call. *)
Inductive AuthLog : Type :=
| AuthenticationError (authorization : option string)
| OptionalAuthFailed
| SessionStored (userId : string) (expiresAt : Timestamp)
| StoreSessionFailed (userId : string)
| CleanedUp (deletedCount : Z)
| CleanupFailed
| LoggedOut
| LogoutError.

Record AuthEnv : Type := mkAuthEnv {
  auth_fails : AuthStmt -> bool;              (* the statements the store rejects *)
  JWT_SECRET : option string;                 (* process.env['JWT_SECRET'] *)
  jwt_verify : string -> string -> option TokenPayload.t;
                                              (* jwt.verify(token, secret); [None] when it throws *)
  sha256_hex : string -> string;              (* createHash('sha256').update(token).digest('hex') *)
  auth_now : Timestamp;                       (* NOW() *)
  thirty_days_later : Timestamp               (* new Date() moved on by setDate(getDate() + 30) *)
}.

Record AuthWorld : Type := mkAuthWorld {
  users : list User.t;
  user_sessions : list UserSession.t;
  auth_logged : list AuthLog
}.

Definition set_sessions (f : list UserSession.t -> list UserSession.t) (a : AuthWorld)
    : AuthWorld :=
  mkAuthWorld (users a) (f (user_sessions a)) (auth_logged a).

Definition log_auth (entry : AuthLog) (a : AuthWorld) : AuthWorld :=
  mkAuthWorld (users a) (user_sessions a) (auth_logged a ++ [entry])%list.

(** [s.split(' ')] *)
Fixpoint split_space (s : string) : list string :=
  match s with
  | EmptyString => [""]
  | String c rest =>
      if Ascii.eqb c " " then "" :: split_space rest
      else
        match split_space rest with
        | piece :: pieces => String c piece :: pieces
        | [] => [String c ""]
        end
  end.

(** [authHeader && authHeader.split(' ')[1]] *)
Definition bearer_token (authHeader : option string) : option string :=
  match authHeader with
  | None => None
  | Some h => if truthy_str h then split_space h !! 1%nat else Some h
  end.

(** [verifyToken]: null when the secret is not set or [jwt.verify] throws. *)
Definition verifyToken (env : AuthEnv) (token : string) : option TokenPayload.t :=
  if js_not truthy_str (JWT_SECRET env) then None
  else jwt_verify env token (default "" (JWT_SECRET env)).

Definition select_user_by_id (userId : option string) (a : AuthWorld) : list User.t :=
  match userId with
  | Some i => filter (fun u => User.id u = i) (users a)
  | None => []
  end.

Definition touch_session (tokenHash : string) (now : Timestamp) (s : UserSession.t)
    : UserSession.t :=
  if String.eqb (UserSession.token_hash s) tokenHash then
    UserSession.mk (UserSession.user_id s) (UserSession.token_hash s)
      (UserSession.created_at s) (UserSession.expires_at s) now
      (UserSession.user_agent s) (UserSession.ip_address s)
  else s.

(** What the middleware does with the request: call [next] with [req.user]
    set, or answer. *)
Inductive AuthOutcome : Type :=
| Next (user : User.t)
| Responded (resp : Response).

(** [authenticateToken] (also exported as [requireAuth]). *)
Definition authenticateToken (env : AuthEnv) (a : AuthWorld) (authorization : option string)
    : AuthOutcome * AuthWorld :=
  let failed :=
    (Responded (respond 500 (ErrorBody "Authentication failed")),
     log_auth (AuthenticationError authorization) a) in
  let token := bearer_token authorization in
  if js_not truthy_str token then
    (Responded (respond 401 (ErrorBody "Access token required")), a)
  else
    match verifyToken env (default "" token) with
    | None => (Responded (respond 403 (ErrorBody "Invalid or expired token")), a)
    | Some decoded =>
        if auth_fails env SelectUserById then failed
        else
          match select_user_by_id (TokenPayload.userId decoded) a with
          | [] => (Responded (respond 403 (ErrorBody "User not found")), a)
          | user :: _ =>
              if auth_fails env TouchSession then failed
              else
                (Next user,
                 set_sessions
                   (fmap (touch_session (sha256_hex env (default "" token)) (auth_now env)))
                   a)
          end
    end.

(** [optionalAuth]: always calls [next]; the result is [req.user]. *)
Definition optionalAuth (env : AuthEnv) (a : AuthWorld) (authorization : option string)
    : option User.t * AuthWorld :=
  let token := bearer_token authorization in
  if js_not truthy_str token then (None, a)
  else
    match verifyToken env (default "" token) with
    | None => (None, a)
    | Some decoded =>
        if auth_fails env SelectUserById then (None, log_auth OptionalAuthFailed a)
        else (head (select_user_by_id (TokenPayload.userId decoded) a), a)
    end.

(** [storeSession]: [false] when it throws. *)
Definition storeSession (env : AuthEnv) (a : AuthWorld) (userId token : string)
    (userAgent ipAddress : option string) : bool * AuthWorld :=
  if auth_fails env InsertSession then (false, log_auth (StoreSessionFailed userId) a)
  else
    (true,
     log_auth (SessionStored userId (thirty_days_later env))
       (set_sessions
          (fun sessions =>
             (sessions
              ++ [UserSession.mk userId (sha256_hex env token) (auth_now env)
                    (thirty_days_later env) (auth_now env) userAgent ipAddress])%list)
          a)).

(** [cleanupExpiredSessions]: a failure is logged and swallowed. *)
Definition cleanupExpiredSessions (env : AuthEnv) (a : AuthWorld) : AuthWorld :=
  if auth_fails env DeleteExpiredSessions then log_auth CleanupFailed a
  else
    let expired s := UserSession.expires_at s < auth_now env in
    log_auth (CleanedUp (Z.of_nat (length (filter expired (user_sessions a)))))
      (set_sessions (filter (fun s => ~ expired s)) a).

(** POST /logout of routes/auth.ts.  Its answer has the shape of Delete's. *)
Definition logout (env : AuthEnv) (a : AuthWorld) (authorization : option string)
    : Response * AuthWorld :=
  let token := bearer_token authorization in
  let done := respond 200 (DeletedBody "Logged out successfully") in
  if js_not truthy_str token then (done, a)
  else if auth_fails env DeleteSession then
    (respond 500 (ErrorBody "Logout failed"), log_auth LogoutError a)
  else
    (done,
     log_auth LoggedOut
       (set_sessions
          (filter (fun s => UserSession.token_hash s <> sha256_hex env (default "" token)))
          a)).

(** No space in [s]. *)
Fixpoint spaceless (s : string) : bool :=
  match s with
  | EmptyString => true
  | String c rest => negb (Ascii.eqb c " ") && spaceless rest
  end.

(** ** A call to the sync routes, from the Authorization header on *)

Record SyncCall : Type := mkSyncCall {
  call_method : Method;
  call_path : list string;
  call_authorization : option string;
  call_query_dataType : option string;
  call_query_limit : option string;
  call_body : SyncRequest.t;
  call_backupId : option string
}.

(** Every route of sync.ts is registered as [requireAuth, handler]: the
    matched route runs the middleware, and the handler only after [next]. *)
Definition serve_sync (aenv : AuthEnv) (env : Env) (call : SyncCall)
    (a : AuthWorld) (d : DB) : Outcome Response * AuthWorld * World :=
  match find_route router (call_method call) (call_path call) with
  | NotRouted => (Ok (respond 404 RouteNotFoundBody), a, idle d)
  | DecodeError value =>
      let (outcome, w) :=
        run (error_handler 400 (decode_failure value) (call_method call)) env d in
      (outcome, a, w)
  | Handled route params =>
      match authenticateToken aenv a (call_authorization call) with
      | (Responded resp, a') => (Ok resp, a', idle d)
      | (Next user, a') =>
          let req :=
            mkRequest (call_method call) (call_path call) (call_query_dataType call)
              (call_query_limit call) (call_body call) (call_backupId call) (User.id user) in
          let (outcome, w) := run (route_handler route req params) env d in
          (outcome, a', w)
      end
  end.

(** Sample data for the middleware. *)
Definition sample_users : list User.t :=
  [User.mk "u1" "ann@example.org" (Some "Ann") None;
   User.mk "u2" "bob@example.org" None None].

Definition sample_auth_env : AuthEnv :=
  mkAuthEnv (fun _ => false) (Some "secret")
    (fun token secret =>
       if String.eqb secret "secret" && String.eqb token "tok-u1"
       then Some (TokenPayload.mk (Some "u1") (Some "ann@example.org"))
       else None)
    (fun token => "#" ++ token) 300 900.

Definition sample_auth_world : AuthWorld :=
  mkAuthWorld sample_users
    [UserSession.mk "u1" "#tok-u1" 10 500 10 None None;
     UserSession.mk "u2" "#tok-u2" 20 200 20 None None] [].

(** * Properties *)

(** ** Stepping through a handler *)

(** [exec] unfolds a handler down to the statements it sends; [split_fault]
    decides the next statement the store may reject. *)
Ltac red_sync :=
  cbn -[lookup insert delete filter rows_of_user merge_sort Z.add Z.gtb Z.ltb Z.of_nat
        Z.to_nat includes truthy truthy_str parseInt pg_param].

Ltac exec :=
  unfold run, perform, save, load, history, restore, delete_data, stats,
    updateStorageStats, backup_before,
    select_user_data, backup_current, upsert_user_data, select_backup_history,
    select_backup_by_id, insert_backup, upsert_restored, delete_user_data,
    select_storage_stats, count_user_data, count_backups, sum_user_data,
    upsert_storage_stats,
    query, begin_tx, commit_tx, rollback_tx,
    try_catch, throw, ask, logger, mbind, mret, M_bind, M_ret;
  red_sync.

Ltac split_fault :=
  match goal with
  | |- context [fails ?e ?s] =>
      lazymatch goal with
      | H : fails e s = _ |- _ => rewrite H
      | _ => destruct (fails e s) eqn:?
      end
  end.

(** No statement is rejected: [H : forall s, fails env s = false]. *)
Ltac accept_all H := repeat (rewrite !H; red_sync).

(** [crunch] runs a handler to its end under every choice of rejected
    statements and stored rows, [crunch_accepted] under a store that rejects
    nothing; [settle] closes a finished run of [perform_classified]. *)
Ltac settle :=
  unfold rejected_outside_stats; red_sync;
  repeat match goal with Hf : fails _ _ = _ |- _ => rewrite Hf end;
  cbn;
  first
    [ left; split; [reflexivity | split; [eexists; reflexivity | split; reflexivity]]
    | right; split; [cbn; lia | split; reflexivity] ].

Ltac crunch Hab :=
  repeat (first
    [ split_fault
    | rewrite Hab
    | match goal with
      | H : user_data ?db !! ?k = _ |- context [user_data ?db !! ?k] => rewrite H
      | |- context [user_data ?db !! ?k] => destruct (user_data db !! k) eqn:?
      | |- context [filter ?P (data_backups ?db)] =>
          destruct (filter P (data_backups db)) eqn:?
      | |- context [negb ?x && (?y >? ?z)] => destruct (negb x && (y >? z))
      end ];
    red_sync).

Ltac crunch_accepted Hok :=
  repeat (first
    [ rewrite !Hok
    | match goal with
      | H : user_data ?db !! ?k = _ |- context [user_data ?db !! ?k] => rewrite H
      | |- context [user_data ?db !! ?k] => destruct (user_data db !! k) eqn:?
      | |- context [filter ?P (data_backups ?db)] =>
          destruct (filter P (data_backups db)) eqn:?
      | |- context [negb ?x && (?y >? ?z)] => destruct (negb x && (y >? z))
      end ];
    red_sync).

(** [frame_leaf] closes a finished run of [perform_frame]; [crunch_pair] is
    [crunch] for two runs on tables that agree on the rows of one user. *)
Ltac frame_leaf :=
  intros <-; cbn;
  split;
  [ eexists; split;
    [ first [reflexivity | symmetry; apply app_nil_r]
    | split; [cbn; lia | repeat constructor] ]
  | split;
    [ let k := fresh "k" in
      let Hk := fresh "Hk" in
      intros k Hk; cbn;
      rewrite ?lookup_insert_ne, ?lookup_delete_ne by congruence; reflexivity
    | let u' := fresh "u" in
      let Hu := fresh "Hu" in
      intros u' Hu; cbn; rewrite ?lookup_insert_ne by congruence; reflexivity ] ].

Ltac crunch_pair Hab Hrows :=
  repeat (first
    [ rewrite <- !Hrows
    | split_fault
    | rewrite Hab
    | match goal with
      | H : user_data ?db !! ?k = _ |- context [user_data ?db !! ?k] => rewrite H
      | |- context [user_data ?db !! ?k] => destruct (user_data db !! k) eqn:?
      | |- context [filter ?P (data_backups ?db)] =>
          destruct (filter P (data_backups db)) eqn:?
      | |- context [negb ?x && (?y >? ?z)] => destruct (negb x && (y >? z))
      end ];
    red_sync).

Lemma passes_validation_inv (req : SyncRequest.t) :
  passes_validation req = true ->
  exists threadId dataType content,
    req = SyncRequest.mk (Some threadId) (Some dataType) (Some content)
            (SyncRequest.version req) (SyncRequest.force req)
    /\ truthy_str threadId = true
    /\ truthy_str dataType = true
    /\ truthy content = true
    /\ includes data_types dataType = true.
Proof.
  destruct req as [[t |] [dt |] [c |] v f]; unfold passes_validation; cbn;
    rewrite ?orb_true_r; try discriminate.
  intros H. apply andb_prop in H as [H1 H2].
  apply negb_true_iff in H1.
  apply orb_false_elim in H1 as [H1 H3]. apply orb_false_elim in H1 as [H1 H4].
  apply negb_false_iff in H1, H3, H4.
  exists t, dt, c. auto.
Qed.


(** ** Save: validation *)

(** C10. A Save whose content is null, false, 0 or the empty string, or whose
    threadId is the empty string, is answered 400 for a missing field; no
    statement is sent, nothing is logged and the tables are untouched. *)
Theorem save_rejects_falsy_fields env d userId (req : SyncRequest.t) :
  SyncRequest.content req = Some JNull \/
  SyncRequest.content req = Some (JBool false) \/
  SyncRequest.content req = Some (JNum 0) \/
  SyncRequest.content req = Some (JStr "") \/
  SyncRequest.threadId req = Some "" ->
  run (save userId req) env d
  = (Ok (respond 400 (ErrorBody "Missing required fields: threadId, dataType, content")),
     idle d).
Proof.
  intros H. unfold run, save, try_catch.
  assert (Hguard :
    js_not truthy_str (SyncRequest.threadId req)
    || js_not truthy_str (SyncRequest.dataType req)
    || js_not truthy (SyncRequest.content req) = true).
  { destruct H as [H | [H | [H | [H | H]]]]; rewrite H; cbn;
      rewrite ?orb_true_r; reflexivity. }
  rewrite Hguard. reflexivity.
Qed.

Lemma save_rejects_falsy_fields_witness :
  run (save "u1" (SyncRequest.mk (Some "t1") (Some "document") (Some (JNum 0)) (Some 2) None))
      sample_env db_v1
  = (Ok (respond 400 (ErrorBody "Missing required fields: threadId, dataType, content")),
     idle db_v1).
Proof.
  apply (save_rejects_falsy_fields sample_env db_v1 "u1"
           (SyncRequest.mk (Some "t1") (Some "document") (Some (JNum 0)) (Some 2) None)).
  right. right. left. reflexivity.
Defined.

(** ** Save: the conflict check *)

(** C1. For a well-formed Save whose thread has a stored row, with force
    off and the lookup answered: when the stored version is strictly greater
    than the supplied one, Save answers 409 with the stored version, content
    and timestamp, after the lookup alone (no other statement, no open
    transaction, tables untouched); when the stored version is equal to or
    below the supplied one, whatever Save answers is not a 409. *)
Theorem save_conflict_only_when_stored_version_greater
    env d userId (req : SyncRequest.t) threadId existing :
  passes_validation req = true ->
  SyncRequest.threadId req = Some threadId ->
  fails env SelectUserData = false ->
  user_data d !! (userId, threadId) = Some existing ->
  default false (SyncRequest.force req) = false ->
  (UserData.version existing > default 1 (SyncRequest.version req) ->
     run (save userId req) env d
     = (Ok (respond 409
              (ConflictBody "Version conflict" (UserData.version existing)
                 (UserData.content existing) (UserData.updated_at existing))),
        mkWorld d None false [SelectUserData] []))
  /\ (UserData.version existing <= default 1 (SyncRequest.version req) ->
      forall resp, response_of (run (save userId req) env d) = Some resp ->
                   status resp <> 409).
Proof.
  intros Hvalid Hthread Hsel Hex Hforce.
  destruct (passes_validation_inv req Hvalid) as (t & dt & c & Hreq & Ht & Hdt' & Hc & Hdt).
  rewrite Hreq in Hthread. cbn in Hthread. injection Hthread as ->.
  rewrite Hreq in Hforce |- *. cbn in Hforce. cbn [SyncRequest.version].
  set (supplied := default 1 (SyncRequest.version req)).
  split.
  - intros Hgt.
    assert (Hk : (UserData.version existing >? supplied) = true)
      by (rewrite Z.gtb_ltb; apply Z.ltb_lt; lia).
    exec. rewrite Ht, Hdt', Hc, Hdt. red_sync.
    rewrite Hsel, Hex. red_sync. fold supplied. rewrite Hforce, Hk. reflexivity.
  - intros Hle resp.
    assert (Hk : (UserData.version existing >? supplied) = false)
      by (rewrite Z.gtb_ltb; apply Z.ltb_ge; lia).
    exec. rewrite Ht, Hdt', Hc, Hdt. red_sync.
    rewrite Hsel, Hex. red_sync. fold supplied. rewrite Hforce, Hk. red_sync.
    repeat (split_fault; red_sync); intros [= <-]; cbn; lia.
Qed.

Lemma save_conflict_only_when_stored_version_greater_witness :
  run (save "u1" (save_req 2 doc_a1)) sample_env db_v3
  = (Ok (respond 409 (ConflictBody "Version conflict" 3 doc_a2 60)),
     mkWorld db_v3 None false [SelectUserData] []).
Proof.
  refine (proj1 (save_conflict_only_when_stored_version_greater
                   sample_env db_v3 "u1" (save_req 2 doc_a1) "t1"
                   (UserData.mk "document" doc_a2 3 60) _ _ _ _ _) _).
  - reflexivity.
  - reflexivity.
  - reflexivity.
  - reflexivity.
  - reflexivity.
  - cbn. lia.
Defined.

(** ** Load *)

(** C7. With a dataType among spreadsheet, document and both (or none, which
    stands for both), the response of Load and the tables it leaves do not
    depend on the dataType; when the lookup is answered, Load answers 404
    exactly when the thread has no stored row.  Any other dataType is
    answered 400 before a statement is sent. *)
Theorem load_ignores_dataType env d userId threadId (dataType1 dataType2 : option string) :
  includes data_types (default "both" dataType1) = true ->
  includes data_types (default "both" dataType2) = true ->
  response_of (run (load userId threadId dataType1) env d)
  = response_of (run (load userId threadId dataType2) env d)
  /\ stored (run (load userId threadId dataType1) env d) = d
  /\ (fails env SelectUserData = false ->
      (response_of (run (load userId threadId dataType1) env d)
       = Some (respond 404 (ErrorBody "Data not found"))
       <-> user_data d !! (userId, threadId) = None))
  /\ (forall other,
        includes data_types other = false ->
        run (load userId threadId (Some other)) env d
        = (Ok (respond 400
                 (ErrorBody "Invalid dataType. Must be: spreadsheet, document, or both")),
           idle d)).
Proof.
  intros H1 H2. split; [| split; [| split]].
  - exec. rewrite H1, H2. red_sync. split_fault; red_sync; [reflexivity |].
    destruct (user_data d !! (userId, threadId)); reflexivity.
  - exec. rewrite H1. red_sync. split_fault; red_sync; [reflexivity |].
    destruct (user_data d !! (userId, threadId)); reflexivity.
  - intros Hsel. exec. rewrite H1. red_sync. rewrite Hsel. red_sync.
    destruct (user_data d !! (userId, threadId)); cbn; split; congruence.
  - intros other Hother. exec. rewrite Hother. reflexivity.
Qed.

Lemma load_ignores_dataType_witness :
  response_of (run (load "u1" "t1" (Some "spreadsheet")) sample_env db_v3)
  = response_of (run (load "u1" "t1" None) sample_env db_v3).
Proof.
  refine (proj1 (load_ignores_dataType sample_env db_v3 "u1" "t1"
                   (Some "spreadsheet") None _ _)); reflexivity.
Defined.

(** ** History *)

(** C9. History always answers, and never with 404.  When the thread has
    neither a stored row nor a backup, the limit is one the store accepts and
    both lookups are answered, the answer is 200 with [current] null and an
    empty [history]. *)
Theorem history_never_not_found env d userId threadId (limit : option string) :
  (exists resp,
     response_of (run (history userId threadId limit) env d) = Some resp
     /\ status resp <> 404)
  /\ (user_data d !! (userId, threadId) = None ->
      filter (fun b => matches_thread userId threadId b = true) (data_backups d) = [] ->
      (exists n, match limit with Some s => parseInt s | None => Some 10 end = Some n
                 /\ 0 <= n) ->
      fails env SelectUserData = false ->
      fails env SelectBackupHistory = false ->
      response_of (run (history userId threadId limit) env d)
      = Some (respond 200 (HistoryBody None []))).
Proof.
  split.
  - exec.
    destruct (match limit with Some s => parseInt s | None => Some 10 end) as [n |];
      [destruct (n <? 0) |];
      repeat (split_fault; red_sync);
      eexists; (split; [reflexivity | cbn; lia]).
  - intros Hnone Hempty (n & Hn & Hpos) Hsel Hhist.
    exec. rewrite Hsel, Hhist, Hn, Hnone. red_sync.
    replace (n <? 0) with false by (symmetry; apply Z.ltb_ge; lia).
    rewrite Hempty. cbn. by rewrite take_nil.
Qed.

Lemma history_never_not_found_witness :
  response_of (run (history "u1" "t9" (Some "5")) sample_env db_v3)
  = Some (respond 200 (HistoryBody None [])).
Proof.
  refine (proj2 (history_never_not_found sample_env db_v3 "u1" "t9" (Some "5")) _ _ _ _ _).
  - reflexivity.
  - reflexivity.
  - exists 5. split; [reflexivity | lia].
  - reflexivity.
  - reflexivity.
Defined.

(** ** Restore *)

(** C4. When the store accepts every statement and the backup is found,
    the version Restore leaves stored for the thread is the backup's version
    plus one if the thread had a stored row (whatever its version), and the
    backup's version as it is if it had none. *)
Theorem restore_bumps_version_only_on_update
    env d userId threadId backupId (backupData : DataBackup.t) others :
  (forall s, fails env s = false) ->
  truthy_str backupId = true ->
  filter (fun b => DataBackup.id b = backupId /\ DataBackup.user_id b = userId)
    (data_backups d) = backupData :: others ->
  UserData.version
    <$> (user_data (stored (run (restore userId threadId (Some backupId)) env d))
           !! (userId, threadId))
  = Some (match user_data d !! (userId, threadId) with
          | Some _ => DataBackup.version backupData + 1
          | None => DataBackup.version backupData
          end).
Proof.
  intros Hok Hid Hfound.
  exec. rewrite Hid. red_sync. accept_all Hok.
  rewrite Hfound. red_sync. accept_all Hok.
  destruct (user_data d !! (userId, threadId)) as [row |] eqn:Hrow;
    red_sync; accept_all Hok; rewrite ?Hrow; red_sync; accept_all Hok;
    unfold stored; cbn; rewrite lookup_insert_eq; reflexivity.
Qed.

Lemma restore_bumps_version_only_on_update_witness :
  UserData.version
    <$> (user_data (stored (run (restore "u1" "t1" (Some "b-1")) sample_env db_v3))
           !! ("u1", "t1"))
  = Some 2.
Proof.
  refine (restore_bumps_version_only_on_update sample_env db_v3 "u1" "t1" "b-1"
            (DataBackup.mk "b-1" "u1" "t1" "document" doc_a1 1 50) [] _ _ _).
  - reflexivity.
  - reflexivity.
  - reflexivity.
Defined.

(** C5. Restoring backup b-1 (version 1) onto a thread that has a stored row
    writes version 2, and the response reports version 1. *)
Lemma restore_reports_backup_version :
  let r := run (restore "u1" "t1" (Some "b-1")) sample_env db_v3 in
  response_of r = Some (respond 200 (RestoredBody "Data restored successfully" 1 101))
  /\ UserData.version <$> (user_data (stored r) !! ("u1", "t1")) = Some 2.
Proof. split; reflexivity. Qed.

(** ** The router *)

(** C6. GET /stats is matched by the route /:threadId, registered before
    /stats: the request is handled by Load with the thread id [stats], and for
    a user without such a thread the answer is 404. *)
Lemma stats_route_is_captured_by_load :
  (forall userId dataType limit body backupId,
     handle (mkRequest GET ["stats"] dataType limit body backupId userId)
     = load userId "stats" dataType)
  /\ response_of
       (run (handle (mkRequest GET ["stats"] None None (save_req 1 doc_a1) None "u1"))
          sample_env db_v3)
     = Some (respond 404 (ErrorBody "Data not found")).
Proof. split; reflexivity. Qed.

(** ** Delete *)

(** C8 as stated fails: deleting a thread that has a stored row and deleting
    one that has none are answered alike. *)
Lemma delete_response_hides_removal :
  response_of (run (delete_data "u1" "t1") sample_env db_v3)
  = response_of (run (delete_data "u1" "t9") sample_env db_v3)
  /\ is_Some (user_data db_v3 !! ("u1", "t1"))
  /\ user_data db_v3 !! ("u1", "t9") = None.
Proof. split; [reflexivity | split; [by eexists | reflexivity]]. Qed.

(** C8, amended. When the store accepts every statement, Delete answers 200
    with the same message whether or not the thread had a stored row, and the
    thread has no stored row afterwards; whether a row was removed is written
    to the log only ([wasDeleted]). *)
Theorem delete_succeeds_alike env d userId threadId :
  (forall s, fails env s = false) ->
  response_of (run (delete_data userId threadId) env d)
  = Some (respond 200 (DeletedBody "Data deleted successfully"))
  /\ user_data (stored (run (delete_data userId threadId) env d)) !! (userId, threadId) = None
  /\ logged (snd (run (delete_data userId threadId) env d))
     = [mkLog Info "Data deleted successfully"
          [("userId", MStr userId); ("threadId", MStr threadId);
           ("wasDeleted",
            MBool (bool_decide (is_Some (user_data d !! (userId, threadId)))))]].
Proof.
  intros Hok.
  destruct (user_data d !! (userId, threadId)) as [row |] eqn:Hrow.
  - rewrite bool_decide_eq_true_2 by eauto.
    exec. accept_all Hok. rewrite Hrow. red_sync. accept_all Hok.
    rewrite ?Hrow. red_sync. accept_all Hok.
    unfold stored. cbn. repeat split. apply lookup_delete_eq.
  - rewrite bool_decide_eq_false_2 by (intros [? ?]; discriminate).
    exec. accept_all Hok. rewrite Hrow. red_sync. accept_all Hok.
    rewrite ?Hrow. red_sync. accept_all Hok.
    unfold stored. cbn. repeat split. apply lookup_delete_eq.
Qed.

Lemma delete_succeeds_alike_witness :
  response_of (run (delete_data "u1" "t9") sample_env db_v3)
  = Some (respond 200 (DeletedBody "Data deleted successfully")).
Proof.
  refine (proj1 (delete_succeeds_alike sample_env db_v3 "u1" "t9" _)).
  reflexivity.
Defined.

(** ** Transactions and failures *)

(** Every run of Save, Restore or Delete answers, and falls in one of two
    classes: it answers 500, a statement outside [updateStorageStats] was
    rejected and the committed tables are the ones it started from; or it
    does not answer 500, no such statement was rejected and the answer is
    that of the run in which the store rejects nothing. *)
Lemma perform_classified env d userId op :
  match run (perform userId op) env d with
  | (Ok resp, w') =>
      (status resp = 500 /\ (exists msg, body resp = ErrorBody msg)
       /\ committed w' = d /\ rejected_outside_stats env w' = true)
      \/ (status resp <> 500 /\ rejected_outside_stats env w' = false
          /\ response_of (run (perform userId op) (with_faults no_faults env) d) = Some resp)
  | (Thrown _, _) => False
  end.
Proof.
  destruct (aborts_on_error env) eqn:Hab.
  all: destruct op as [[[t |] [dt |] [c |] v f] | t [b |] | t].
  all: exec; unfold with_faults, no_faults; red_sync; rewrite ?Hab; red_sync.
  all: try (destruct (truthy_str t)); try (destruct (truthy_str dt));
    try destruct (truthy c); red_sync.
  all: try (destruct (includes data_types dt)); red_sync.
  all: try (destruct (truthy_str b)); red_sync.
  all: try solve [settle].
  all: crunch Hab.
  all: solve [settle].
Qed.

(** C2.  PostgreSQL marks a transaction aborted at the first statement it
    rejects.  When it rejects the upsert of [storage_stats], the error is
    caught and logged inside [updateStorageStats], so the handler goes on to
    COMMIT, which ends the aborted transaction without storing anything,
    logs the operation as done and answers 200.  Here Save answers 200 with
    the version it did not store, Delete answers 200 and the row is still
    stored, and Restore answers 200 and the row is the one it was. *)
Lemma stats_failure_is_reported_as_success :
  let env := stats_fault_env true in
  let saved := run (save "u1" (save_req 1 doc_a1)) env empty_db in
  let deleted := run (delete_data "u1" "t1") env db_v1 in
  let restored := run (restore "u1" "t1" (Some "b-1")) env db_v3 in
  (fails env UpsertStorageStats = true /\ aborts_on_error env = true)
  /\ issued (snd saved)
     = [SelectUserData; Begin; UpsertUserData; SumUserData; UpsertStorageStats; Commit]
  /\ logged (snd saved)
     = [mkLog Error "Failed to update storage stats"
          [("error", MErr (Rejected UpsertStorageStats)); ("userId", MStr "u1")];
        mkLog Info "Data synced successfully"
          [("userId", MStr "u1"); ("threadId", MStr "t1"); ("dataType", MStr "document");
           ("version", MNum 1); ("force", MBool false); ("isNewRecord", MBool true)]]
  /\ response_of saved = Some (respond 200 (SyncedBody "Data synced successfully" 1 101))
  /\ stored saved = empty_db
  /\ working (snd saved) = None
  /\ issued (snd deleted)
     = [Begin; SelectUserData; InsertBackup; DeleteUserData; SumUserData; UpsertStorageStats;
        Commit]
  /\ response_of deleted = Some (respond 200 (DeletedBody "Data deleted successfully"))
  /\ stored deleted = db_v1
  /\ issued (snd restored)
     = [SelectBackupById; Begin; SelectUserData; InsertBackup; UpsertRestored; SumUserData;
        UpsertStorageStats; Commit]
  /\ response_of restored
     = Some (respond 200 (RestoredBody "Data restored successfully" 1 101))
  /\ stored restored = db_v3.
Proof. repeat split. Qed.

(** ** Backups *)

(** What a Save that passes the conflict check leaves behind. *)
Lemma save_stored env d userId (req : SyncRequest.t) threadId :
  passes_validation req = true ->
  SyncRequest.threadId req = Some threadId ->
  (forall s, fails env s = false) ->
  (default false (SyncRequest.force req) = true
   \/ forall v, UserData.version <$> (user_data d !! (userId, threadId)) = Some v ->
                v <= default 1 (SyncRequest.version req)) ->
  user_data (stored (run (save userId req) env d))
  = <[(userId, threadId) := written env req]> (user_data d)
  /\ data_backups (stored (run (save userId req) env d))
     = (data_backups d
        ++ ((fun row =>
               capture (gen_random_uuid env) userId threadId (UserData.updated_at row) row)
              <$> option_list (user_data d !! (userId, threadId))))%list.
Proof.
  intros Hvalid Hthread Hok Hver.
  destruct (passes_validation_inv req Hvalid) as (t & dt & c & Hreq & Ht & Hdt' & Hc & Hdt).
  rewrite Hreq in Hthread. cbn in Hthread. injection Hthread as ->.
  rewrite Hreq in Hver |- *. cbn [SyncRequest.version SyncRequest.force] in Hver.
  unfold stored, written, capture. cbn [SyncRequest.version SyncRequest.dataType
    SyncRequest.content SyncRequest.force].
  exec. rewrite Ht, Hdt', Hc, Hdt. red_sync. accept_all Hok.
  destruct (user_data d !! (userId, threadId)) as [row |] eqn:Hrow; red_sync.
  - assert (Hpass :
      negb (default false (SyncRequest.force req))
      && (UserData.version row >? default 1 (SyncRequest.version req)) = false).
    { destruct Hver as [-> | Hle]; [reflexivity |].
      specialize (Hle _ eq_refl).
      rewrite Z.gtb_ltb. replace (_ <? _) with false; [apply andb_false_r |].
      symmetry. apply Z.ltb_ge. lia. }
    rewrite Hpass. red_sync. accept_all Hok. rewrite ?Hrow. split; reflexivity.
  - accept_all Hok. rewrite ?Hrow. cbn. rewrite app_nil_r. split; reflexivity.
Qed.

Lemma overwritten_states_length userId threadId prior (calls : list (Env * SyncRequest.t)) :
  calls <> [] ->
  length (overwritten_states userId threadId prior calls)
  = (length (option_list prior) + (length calls - 1))%nat.
Proof.
  revert prior. induction calls as [| [env req] calls IH]; intros prior Hne; [done |].
  cbn [overwritten_states]. rewrite length_app, length_fmap.
  destruct calls as [| call calls']; [cbn; lia |].
  rewrite IH by discriminate. cbn. lia.
Qed.

Lemma run_saves_backups userId threadId (calls : list (Env * SyncRequest.t)) : forall d,
  Forall (fun call : Env * SyncRequest.t =>
            passes_validation (snd call) = true
            /\ SyncRequest.threadId (snd call) = Some threadId
            /\ forall s, fails (fst call) s = false) calls ->
  versions_accepted (UserData.version <$> (user_data d !! (userId, threadId))) calls ->
  data_backups (run_saves userId calls d)
  = (data_backups d
     ++ overwritten_states userId threadId (user_data d !! (userId, threadId)) calls)%list
  /\ forall env req,
       last calls = Some (env, req) ->
       user_data (run_saves userId calls d) !! (userId, threadId) = Some (written env req).
Proof.
  induction calls as [| [env req] calls IH]; intros d Hall Hver.
  - cbn. rewrite app_nil_r. split; [reflexivity | discriminate].
  - apply Forall_cons in Hall as [(Hvalid & Hthread & Hok) Hall].
    cbn in Hvalid, Hthread, Hok. destruct Hver as [Hhere Hver].
    destruct (save_stored env d userId req threadId Hvalid Hthread Hok) as [Hdata Hbackups].
    { destruct Hhere as [Hforce | Hle]; [by left | right].
      intros v Hv. apply Hle. exact Hv. }
    cbn [run_saves overwritten_states].
    set (d1 := stored (run (save userId req) env d)) in *.
    assert (Hrow : user_data d1 !! (userId, threadId) = Some (written env req))
      by (rewrite Hdata; apply lookup_insert_eq).
    destruct (IH d1 Hall) as [IHb IHl].
    { rewrite Hrow. exact Hver. }
    split.
    + rewrite IHb, Hbackups, Hrow, <- app_assoc. reflexivity.
    + intros env' req' Hlast. destruct calls as [| call calls'].
      * cbn in Hlast. injection Hlast as <- <-. exact Hrow.
      * apply IHl. exact Hlast.
Qed.

(** C3.  Save copies the row it overwrites inside the store, and the backup
    holds the row's content.  Delete and Restore hand the content they read
    to the driver as a parameter without serialising it: the empty array
    [[]] reaches the backup as the empty object [{}].  Here a thread holding
    [[]] is deleted with every statement accepted: the answer is 200, and
    the one backup row written holds [{}]; a Save over the same row backs
    [[]] up as it is. *)
Lemma delete_backs_up_altered_content :
  let deleted := run (delete_data "u1" "t1") sample_env db_list in
  let saved := run (save "u1" (save_req 2 doc_a1)) sample_env db_list in
  user_data db_list !! ("u1", "t1") = Some (UserData.mk "document" (JArr []) 1 50)
  /\ response_of deleted = Some (respond 200 (DeletedBody "Data deleted successfully"))
  /\ issued (snd deleted)
     = [Begin; SelectUserData; InsertBackup; DeleteUserData; SumUserData; UpsertStorageStats;
        Commit]
  /\ user_data (stored deleted) !! ("u1", "t1") = None
  /\ data_backups (stored deleted)
     = [DataBackup.mk "b-new" "u1" "t1" "document" (JObj []) 1 100]
  /\ data_backups (stored saved)
     = [DataBackup.mk "b-new" "u1" "t1" "document" (JArr []) 1 50].
Proof. repeat split. Qed.
(** * Further properties of the routes *)

Lemma sum_default env (rows : list UserData.t) :
  default 0
    match rows with
    | [] => None
    | _ :: _ => Some (foldr Z.add 0 ((fun r => text_length env (UserData.content r)) <$> rows))
    end
  = foldr Z.add 0 ((fun r => text_length env (UserData.content r)) <$> rows).
Proof. by destruct rows. Qed.

Lemma delete_stored env d userId threadId :
  (forall s, fails env s = false) ->
  let d1 :=
    mkDB (delete (userId, threadId) (user_data d))
      (data_backups d
       ++ ((fun row =>
              capture (gen_random_uuid env) userId threadId (db_now env) (passed_on env row))
             <$> option_list (user_data d !! (userId, threadId))))%list
      (storage_stats d) in
  run (delete_data userId threadId) env d
  = (Ok (respond 200 (DeletedBody "Data deleted successfully")),
     mkWorld (set_storage_stats <[userId := recomputed env userId d1]> d1) None false
       (statements_of (OpDelete threadId)
          (bool_decide (is_Some (user_data d !! (userId, threadId)))))
       [mkLog Info "Data deleted successfully"
          [("userId", MStr userId); ("threadId", MStr threadId);
           ("wasDeleted",
            MBool (bool_decide (is_Some (user_data d !! (userId, threadId)))))]]).
Proof.
  intros Hok d1. subst d1.
  destruct (user_data d !! (userId, threadId)) as [row |] eqn:Hrow.
  - rewrite bool_decide_eq_true_2 by eauto.
    exec. accept_all Hok. rewrite Hrow. red_sync. accept_all Hok.
    rewrite ?Hrow. red_sync. accept_all Hok.
    unfold recomputed, rows_of_user, set_storage_stats, capture, passed_on. cbn.
    rewrite sum_default. reflexivity.
  - rewrite bool_decide_eq_false_2 by (intros [? ?]; discriminate).
    exec. accept_all Hok. rewrite Hrow. red_sync. accept_all Hok.
    rewrite ?Hrow. red_sync. accept_all Hok.
    unfold recomputed, rows_of_user, set_storage_stats. cbn. rewrite sum_default, app_nil_r.
    reflexivity.
Qed.

Lemma save_stored_all env d userId (req : SyncRequest.t) threadId :
  passes_validation req = true ->
  SyncRequest.threadId req = Some threadId ->
  (forall s, fails env s = false) ->
  (default false (SyncRequest.force req) = true
   \/ forall v, UserData.version <$> (user_data d !! (userId, threadId)) = Some v ->
                v <= default 1 (SyncRequest.version req)) ->
  let d1 :=
    mkDB (<[(userId, threadId) := written env req]> (user_data d))
      (data_backups d
       ++ ((fun row =>
              capture (gen_random_uuid env) userId threadId (UserData.updated_at row) row)
             <$> option_list (user_data d !! (userId, threadId))))%list
      (storage_stats d) in
  response_of (run (save userId req) env d)
  = Some (respond 200
            (SyncedBody "Data synced successfully" (default 1 (SyncRequest.version req))
               (js_now env)))
  /\ snd (run (save userId req) env d)
     = mkWorld (set_storage_stats <[userId := recomputed env userId d1]> d1) None false
         (statements_of (OpSave req)
            (bool_decide (is_Some (user_data d !! (userId, threadId)))))
         (logged (snd (run (save userId req) env d))).
Proof.
  intros Hvalid Hthread Hok Hver.
  destruct (passes_validation_inv req Hvalid) as (t & dt & c & Hreq & Ht & Hdt' & Hc & Hdt).
  rewrite Hreq in Hthread. cbn in Hthread. injection Hthread as ->.
  rewrite Hreq in Hver |- *. cbn [SyncRequest.version SyncRequest.force] in Hver.
  unfold written, capture, statements_of, recomputed, rows_of_user, set_storage_stats, response_of.
  cbn [SyncRequest.version SyncRequest.dataType SyncRequest.content SyncRequest.force].
  exec. rewrite Ht, Hdt', Hc, Hdt. red_sync. accept_all Hok.
  destruct (user_data d !! (userId, threadId)) as [row |] eqn:Hrow; red_sync.
  - assert (Hpass :
      negb (default false (SyncRequest.force req))
      && (UserData.version row >? default 1 (SyncRequest.version req)) = false).
    { destruct Hver as [-> | Hle]; [reflexivity |].
      specialize (Hle _ eq_refl).
      rewrite Z.gtb_ltb. replace (_ <? _) with false; [apply andb_false_r |].
      symmetry. apply Z.ltb_ge. lia. }
    rewrite Hpass. red_sync. accept_all Hok. rewrite ?Hrow.
    cbn. rewrite sum_default. split; reflexivity.
  - accept_all Hok. rewrite ?Hrow.
    cbn. rewrite sum_default, app_nil_r. split; reflexivity.
Qed.

Lemma restore_stored env d userId threadId backupId (backupData : DataBackup.t) others :
  (forall s, fails env s = false) ->
  truthy_str backupId = true ->
  filter (fun b => DataBackup.id b = backupId /\ DataBackup.user_id b = userId)
    (data_backups d) = backupData :: others ->
  let restored :=
    UserData.mk (DataBackup.data_type backupData)
      (pg_param env (DataBackup.content backupData))
      (match user_data d !! (userId, threadId) with
       | Some _ => DataBackup.version backupData + 1
       | None => DataBackup.version backupData
       end)
      (db_now env) in
  let d1 :=
    mkDB (<[(userId, threadId) := restored]> (user_data d))
      (data_backups d
       ++ ((fun row =>
              capture (gen_random_uuid env) userId threadId (db_now env) (passed_on env row))
             <$> option_list (user_data d !! (userId, threadId))))%list
      (storage_stats d) in
  response_of (run (restore userId threadId (Some backupId)) env d)
  = Some (respond 200
            (RestoredBody "Data restored successfully" (DataBackup.version backupData)
               (js_now env)))
  /\ stored (run (restore userId threadId (Some backupId)) env d)
     = set_storage_stats <[userId := recomputed env userId d1]> d1.
Proof.
  intros Hok Hid Hfound.
  unfold capture, passed_on, recomputed, rows_of_user, set_storage_stats, response_of, stored.
  exec. rewrite Hid. red_sync. accept_all Hok.
  rewrite Hfound. red_sync. accept_all Hok.
  destruct (user_data d !! (userId, threadId)) as [row |] eqn:Hrow;
    red_sync; accept_all Hok; rewrite ?Hrow; red_sync; accept_all Hok;
    cbn; rewrite sum_default, ?app_nil_r; split; reflexivity.
Qed.

(** X1. Save: a dataType outside the three names is answered 400 before any statement. *)
Theorem save_rejects_unknown_dataType env d userId threadId dataType content version force :
  truthy_str threadId = true ->
  truthy_str dataType = true ->
  truthy content = true ->
  includes data_types dataType = false ->
  run (save userId (SyncRequest.mk (Some threadId) (Some dataType) (Some content) version force))
      env d
  = (Ok (respond 400
           (ErrorBody "Invalid dataType. Must be: spreadsheet, document, or both")),
     idle d).
Proof.
  intros Ht Hdt Hc Hbad. exec. rewrite Ht, Hdt, Hc, Hbad. reflexivity.
Qed.

Lemma save_rejects_unknown_dataType_witness :
  run (save "u1" (SyncRequest.mk (Some "t1") (Some "Document") (Some doc_a1) None None))
      sample_env db_v1
  = (Ok (respond 400
           (ErrorBody "Invalid dataType. Must be: spreadsheet, document, or both")),
     idle db_v1).
Proof.
  apply (save_rejects_unknown_dataType sample_env db_v1 "u1" "t1" "Document" doc_a1 None None);
    reflexivity.
Defined.

Lemma save_invalid env d userId (req : SyncRequest.t) :
  passes_validation req = false ->
  exists msg, run (save userId req) env d = (Ok (respond 400 (ErrorBody msg)), idle d).
Proof.
  destruct req as [[t |] [dt |] [c |] v f]; unfold passes_validation; cbn;
    intros H; exec;
    try destruct (truthy_str t); try destruct (truthy_str dt); try destruct (truthy c);
    cbn in *; try destruct (includes data_types dt); cbn in *;
    try discriminate; eauto.
Qed.

(** X2. Save answers 409 exactly when the request is well formed, the lookup is
    answered, the thread has a stored row, force is off and the stored version
    is strictly greater than the supplied one. *)
Theorem save_conflict_iff env d userId (req : SyncRequest.t) :
  (exists b, response_of (run (save userId req) env d) = Some (respond 409 b))
  <-> passes_validation req = true
      /\ fails env SelectUserData = false
      /\ exists existing,
           user_data d !! (userId, default "" (SyncRequest.threadId req)) = Some existing
           /\ default false (SyncRequest.force req) = false
           /\ UserData.version existing > default 1 (SyncRequest.version req).
Proof.
  destruct (passes_validation req) eqn:Hvalid.
  2:{ destruct (save_invalid env d userId req Hvalid) as [msg ->].
      split; [intros [b [=]] | intros [[=] _]]. }
  destruct (passes_validation_inv req Hvalid) as (t & dt & c & Hreq & Ht & Hdt' & Hc & Hdt).
  rewrite Hreq. cbn [SyncRequest.threadId SyncRequest.version SyncRequest.force default].
  set (supplied := default 1 (SyncRequest.version req)).
  set (force := default false (SyncRequest.force req)).
  exec. rewrite Ht, Hdt', Hc, Hdt. red_sync.
  fold supplied. fold force.
  destruct (fails env SelectUserData) eqn:Hsel; red_sync.
  { split; [intros [b [=]] | intros (_ & [=] & _)]. }
  destruct (user_data d !! (userId, t)) as [existing |] eqn:Hex; red_sync.
  - destruct force; red_sync.
    + split.
      * repeat (split_fault; red_sync); intros [b [=]].
      * intros (_ & _ & ex & _ & [=] & _).
    + destruct (UserData.version existing >? supplied) eqn:Hk; red_sync.
      * split; [| intros _; eexists; reflexivity].
        intros _. repeat split. exists existing. repeat split.
        rewrite Z.gtb_ltb in Hk. apply Z.ltb_lt in Hk. lia.
      * split.
        -- repeat (split_fault; red_sync); intros [b [=]].
        -- intros (_ & _ & ex & [= <-] & _ & Hgt).
           rewrite Z.gtb_ltb in Hk. apply Z.ltb_ge in Hk. lia.
  - split.
    + repeat (split_fault; red_sync); intros [b [=]].
    + intros (_ & _ & ex & [=] & _).
Qed.

(** X3. What Save stores, Load returns. *)
Theorem save_then_load env env' d userId (req : SyncRequest.t) threadId dataType :
  passes_validation req = true ->
  SyncRequest.threadId req = Some threadId ->
  (forall s, fails env s = false) ->
  (default false (SyncRequest.force req) = true
   \/ forall v, UserData.version <$> (user_data d !! (userId, threadId)) = Some v ->
                v <= default 1 (SyncRequest.version req)) ->
  fails env' SelectUserData = false ->
  includes data_types (default "both" dataType) = true ->
  response_of (run (load userId threadId dataType) env' (stored (run (save userId req) env d)))
  = Some (respond 200
            (LoadedBody (default JNull (SyncRequest.content req))
               (default 1 (SyncRequest.version req)) (db_now env)
               (default "" (SyncRequest.dataType req)))).
Proof.
  intros Hvalid Hthread Hok Hver Hsel Hdt.
  destruct (save_stored_all env d userId req threadId Hvalid Hthread Hok Hver) as [_ Hw].
  unfold stored. rewrite Hw. cbn [committed].
  exec. rewrite Hdt. red_sync. rewrite Hsel. red_sync.
  rewrite lookup_insert_eq. reflexivity.
Qed.

Lemma save_then_load_witness :
  response_of (run (load "u1" "t1" None) later_env
                 (stored (run (save "u1" (save_req 3 doc_a1)) sample_env db_v3)))
  = Some (respond 200 (LoadedBody doc_a1 3 100 "document")).
Proof.
  refine (save_then_load sample_env later_env db_v3 "u1" (save_req 3 doc_a1) "t1" None
            _ _ _ _ _ _).
  - reflexivity.
  - reflexivity.
  - reflexivity.
  - right. intros v Hv. vm_compute in Hv. injection Hv as <-. cbn. lia.
  - reflexivity.
  - reflexivity.
Defined.

(** X4. After Delete, Load finds nothing. *)
Theorem delete_then_load_not_found env env' d userId threadId dataType :
  (forall s, fails env s = false) ->
  fails env' SelectUserData = false ->
  includes data_types (default "both" dataType) = true ->
  response_of (run (load userId threadId dataType) env'
                 (stored (run (delete_data userId threadId) env d)))
  = Some (respond 404 (ErrorBody "Data not found")).
Proof.
  intros Hok Hsel Hdt.
  unfold stored. rewrite (delete_stored env d userId threadId Hok). cbn [snd committed].
  exec. rewrite Hdt. red_sync. rewrite Hsel. red_sync.
  rewrite lookup_delete_eq. reflexivity.
Qed.

Lemma delete_then_load_not_found_witness :
  response_of (run (load "u1" "t1" None) later_env
                 (stored (run (delete_data "u1" "t1") sample_env db_v3)))
  = Some (respond 404 (ErrorBody "Data not found")).
Proof.
  refine (delete_then_load_not_found sample_env later_env db_v3 "u1" "t1" None _ _ _);
    reflexivity.
Defined.

(** X5. Restore without a backupId, or with one no backup of the user carries. *)
Theorem restore_needs_own_backup env d userId threadId :
  (forall backupId,
     js_not truthy_str backupId = true ->
     run (restore userId threadId backupId) env d
     = (Ok (respond 400 (ErrorBody "backupId is required")), idle d))
  /\ (forall backupId,
        truthy_str backupId = true ->
        fails env SelectBackupById = false ->
        (forall b, b ∈ data_backups d -> DataBackup.id b = backupId ->
                   DataBackup.user_id b <> userId) ->
        run (restore userId threadId (Some backupId)) env d
        = (Ok (respond 404 (ErrorBody "Backup not found")),
           mkWorld d None false [SelectBackupById] [])).
Proof.
  split.
  - intros backupId Hnone. exec. rewrite Hnone. reflexivity.
  - intros backupId Hid Hsel Hforeign.
    assert (Hnil :
      filter (fun b => DataBackup.id b = backupId /\ DataBackup.user_id b = userId)
        (data_backups d) = []).
    { apply elem_of_nil_inv. intros b Hb. apply list_elem_of_filter in Hb as [[Hi Hu] Hin].
      exact (Hforeign b Hin Hi Hu). }
    exec. rewrite Hid. red_sync. rewrite Hsel. red_sync. rewrite Hnil. reflexivity.
Qed.

Lemma restore_needs_own_backup_witness :
  run (restore "u2" "t1" (Some "b-1")) sample_env db_v3
  = (Ok (respond 404 (ErrorBody "Backup not found")),
     mkWorld db_v3 None false [SelectBackupById] []).
Proof.
  refine (proj2 (restore_needs_own_backup sample_env db_v3 "u2" "t1") "b-1" _ _ _).
  - reflexivity.
  - reflexivity.
  - intros b Hb _. cbn in Hb. apply list_elem_of_singleton in Hb as ->. discriminate.
Defined.

(** ** History *)

Lemma newer_first_total : Total newer_first.
Proof. intros a b. unfold newer_first. lia. Qed.

Lemma newer_first_trans : Transitive newer_first.
Proof. intros a b c. unfold newer_first. lia. Qed.

Lemma matches_thread_true userId threadId (b : DataBackup.t) :
  matches_thread userId threadId b = true
  <-> DataBackup.user_id b = userId /\ DataBackup.thread_id b = threadId.
Proof.
  unfold matches_thread. rewrite andb_true_iff, !bool_decide_eq_true. reflexivity.
Qed.

Lemma history_ok env d userId threadId (limit : option string) cur hist :
  response_of (run (history userId threadId limit) env d)
  = Some (respond 200 (HistoryBody cur hist)) ->
  exists n,
    match limit with Some s => parseInt s | None => Some 10 end = Some n
    /\ 0 <= n
    /\ cur = user_data d !! (userId, threadId)
    /\ hist = history_rows userId threadId n d.
Proof.
  unfold history_rows. exec.
  destruct (match limit with Some s => parseInt s | None => Some 10 end) as [n |];
    [destruct (n <? 0) eqn:Hn |];
    repeat (split_fault; red_sync); try (intros [=]; fail).
  intros [= <- <-]. exists n. repeat split.
  - apply Z.ltb_ge in Hn. lia.
  - by destruct (user_data d !! (userId, threadId)).
Qed.

(** X6. A History answer holds the stored row, at most [limit] backups (ten
    when no limit is given), all of them backups of this user and thread,
    newest first, and as many as the limit allows. *)
Theorem history_bounded_scoped_newest_first env d userId threadId (limit : option string)
    cur hist :
  response_of (run (history userId threadId limit) env d)
  = Some (respond 200 (HistoryBody cur hist)) ->
  cur = user_data d !! (userId, threadId)
  /\ (exists n,
        match limit with Some s => parseInt s | None => Some 10 end = Some n
        /\ 0 <= n
        /\ length hist
           = Nat.min (Z.to_nat n)
               (length (filter (fun b => matches_thread userId threadId b = true)
                          (data_backups d))))
  /\ Forall (fun b => b ∈ data_backups d
                      /\ DataBackup.user_id b = userId
                      /\ DataBackup.thread_id b = threadId) hist
  /\ StronglySorted newer_first hist.
Proof.
  intros H. destruct (history_ok env d userId threadId limit cur hist H)
    as (n & Hn & Hpos & -> & ->).
  unfold history_rows. split; [reflexivity |]. split; [| split].
  - exists n. repeat split; [exact Hn | exact Hpos |].
    rewrite length_take. f_equal.
    apply Permutation_length, merge_sort_Permutation.
  - apply Forall_forall. intros b Hb.
    apply subseteq_take in Hb. rewrite merge_sort_Permutation in Hb.
    apply list_elem_of_filter in Hb as [Hm Hin].
    apply matches_thread_true in Hm. tauto.
  - pose proof (@StronglySorted_merge_sort _ newer_first _ newer_first_trans newer_first_total
                  (filter (fun b => matches_thread userId threadId b = true)
                     (data_backups d))) as Hs.
    rewrite <- (take_drop (Z.to_nat n)) in Hs.
    by apply StronglySorted_app_1_l in Hs.
Qed.

Lemma history_bounded_scoped_newest_first_witness :
  Forall (fun b => b ∈ data_backups db_v3
                   /\ DataBackup.user_id b = "u1" /\ DataBackup.thread_id b = "t1")
    [DataBackup.mk "b-1" "u1" "t1" "document" doc_a1 1 50].
Proof.
  refine (proj1 (proj2 (proj2
    (history_bounded_scoped_newest_first sample_env db_v3 "u1" "t1" (Some "5")
       (Some (UserData.mk "document" doc_a2 3 60))
       [DataBackup.mk "b-1" "u1" "t1" "document" doc_a1 1 50] _)))).
  reflexivity.
Defined.

(** The newest backup of a thread comes first. *)
Lemma newest_backup_first userId threadId (old : list DataBackup.t) (b : DataBackup.t) n :
  matches_thread userId threadId b = true ->
  (forall b', b' ∈ old -> matches_thread userId threadId b' = true ->
              DataBackup.created_at b' < DataBackup.created_at b) ->
  (0 < n)%nat ->
  exists rest,
    take n (merge_sort newer_first
              (filter (fun b => matches_thread userId threadId b = true) (old ++ [b])%list))
    = b :: rest.
Proof.
  intros Hb Hold Hn.
  set (l := filter (fun b => matches_thread userId threadId b = true) (old ++ [b])%list).
  pose proof (merge_sort_Permutation newer_first l) as Hperm.
  pose proof (@StronglySorted_merge_sort _ newer_first _ newer_first_trans newer_first_total l)
    as Hsorted.
  assert (Hin : b ∈ l).
  { subst l. apply list_elem_of_filter. split; [exact Hb |].
    apply elem_of_app. right. by apply list_elem_of_singleton. }
  assert (Hl : forall x, x ∈ l -> x = b \/ DataBackup.created_at x < DataBackup.created_at b).
  { intros x Hx. subst l. apply list_elem_of_filter in Hx as [Hm Hx].
    apply elem_of_app in Hx as [Hx | Hx].
    - right. by apply Hold.
    - left. by apply list_elem_of_singleton in Hx. }
  destruct (merge_sort newer_first l) as [| h tl] eqn:Hms.
  { rewrite <- Hperm in Hin. by apply elem_of_nil in Hin. }
  assert (h = b) as ->.
  { assert (Hh : h ∈ l) by (rewrite <- Hperm; apply list_elem_of_here).
    destruct (Hl h Hh) as [-> | Hlt]; [reflexivity |].
    rewrite <- Hperm in Hin. apply elem_of_cons in Hin as [-> | Hin]; [reflexivity |].
    apply StronglySorted_cons in Hsorted as [Hall _].
    rewrite Forall_forall in Hall. specialize (Hall b Hin).
    unfold newer_first in Hall. lia. }
  destruct n as [| n]; [lia |]. cbn. eauto.
Qed.

(** X7. After Delete, History shows no current row, and as its newest backup
    the deleted row's data type and version with its content as the driver
    passed it on ([pg_param]: an object as it was, the empty array as the
    empty object). *)
Theorem delete_then_history env env' d userId threadId row (limit : option string) n :
  (forall s, fails env s = false) ->
  user_data d !! (userId, threadId) = Some row ->
  (forall b, b ∈ data_backups d -> matches_thread userId threadId b = true ->
             DataBackup.created_at b < db_now env) ->
  fails env' SelectUserData = false ->
  fails env' SelectBackupHistory = false ->
  match limit with Some s => parseInt s | None => Some 10 end = Some n ->
  0 < n ->
  exists rest,
    response_of (run (history userId threadId limit) env'
                   (stored (run (delete_data userId threadId) env d)))
    = Some (respond 200
              (HistoryBody None
                 (capture (gen_random_uuid env) userId threadId (db_now env)
                    (passed_on env row) :: rest))).
Proof.
  intros Hok Hrow Hclock Hsel Hhist Hn Hpos.
  unfold stored. rewrite (delete_stored env d userId threadId Hok). cbn [snd committed].
  rewrite Hrow. cbn [option_list fmap list_fmap].
  destruct (newest_backup_first userId threadId (data_backups d)
              (capture (gen_random_uuid env) userId threadId (db_now env) (passed_on env row))
              (Z.to_nat n))
    as [rest Hrest].
  { apply matches_thread_true. split; reflexivity. }
  { exact Hclock. }
  { lia. }
  exists rest.
  exec. rewrite Hsel, Hhist, Hn. red_sync.
  replace (n <? 0) with false by (symmetry; apply Z.ltb_ge; lia).
  rewrite lookup_delete_eq. red_sync. cbn in Hrest. rewrite Hrest. reflexivity.
Qed.

Lemma delete_then_history_witness :
  exists rest,
    response_of (run (history "u1" "t1" None) later_env
                   (stored (run (delete_data "u1" "t1") sample_env db_v3)))
    = Some (respond 200
              (HistoryBody None
                 (capture "b-new" "u1" "t1" 100 (UserData.mk "document" doc_a2 3 60) :: rest))).
Proof.
  refine (delete_then_history sample_env later_env db_v3 "u1" "t1"
            (UserData.mk "document" doc_a2 3 60) None 10 _ _ _ _ _ _ _).
  - reflexivity.
  - reflexivity.
  - intros b Hb _. cbn in Hb. apply list_elem_of_singleton in Hb as ->. cbn. lia.
  - reflexivity.
  - reflexivity.
  - reflexivity.
  - lia.
Defined.

(** X8. After Restore onto a thread that had a row, History shows as the
    current row the backup's data type, its version plus one and its content
    as the driver passed it on, and as the newest backup the overwritten
    row's data type and version with its content as the driver passed it on
    ([pg_param]: an object as it was, the empty array as the empty
    object). *)
Theorem restore_then_history env env' d userId threadId backupId
    (backupData : DataBackup.t) others row (limit : option string) n :
  (forall s, fails env s = false) ->
  truthy_str backupId = true ->
  filter (fun b => DataBackup.id b = backupId /\ DataBackup.user_id b = userId)
    (data_backups d) = backupData :: others ->
  user_data d !! (userId, threadId) = Some row ->
  (forall b, b ∈ data_backups d -> matches_thread userId threadId b = true ->
             DataBackup.created_at b < db_now env) ->
  fails env' SelectUserData = false ->
  fails env' SelectBackupHistory = false ->
  match limit with Some s => parseInt s | None => Some 10 end = Some n ->
  0 < n ->
  exists rest,
    response_of (run (history userId threadId limit) env'
                   (stored (run (restore userId threadId (Some backupId)) env d)))
    = Some (respond 200
              (HistoryBody
                 (Some (UserData.mk (DataBackup.data_type backupData)
                          (pg_param env (DataBackup.content backupData))
                          (DataBackup.version backupData + 1) (db_now env)))
                 (capture (gen_random_uuid env) userId threadId (db_now env)
                    (passed_on env row) :: rest))).
Proof.
  intros Hok Hid Hfound Hrow Hclock Hsel Hhist Hn Hpos.
  destruct (restore_stored env d userId threadId backupId backupData others Hok Hid Hfound)
    as [_ ->].
  rewrite Hrow. cbn [option_list fmap list_fmap].
  destruct (newest_backup_first userId threadId (data_backups d)
              (capture (gen_random_uuid env) userId threadId (db_now env) (passed_on env row))
              (Z.to_nat n))
    as [rest Hrest].
  { apply matches_thread_true. split; reflexivity. }
  { exact Hclock. }
  { lia. }
  exists rest.
  exec. rewrite Hsel, Hhist, Hn. red_sync.
  replace (n <? 0) with false by (symmetry; apply Z.ltb_ge; lia).
  rewrite lookup_insert_eq. red_sync. cbn in Hrest. rewrite Hrest. reflexivity.
Qed.

Lemma restore_then_history_witness :
  exists rest,
    response_of (run (history "u1" "t1" (Some "3")) later_env
                   (stored (run (restore "u1" "t1" (Some "b-1")) sample_env db_v3)))
    = Some (respond 200
              (HistoryBody (Some (UserData.mk "document" doc_a1 2 100))
                 (capture "b-new" "u1" "t1" 100 (UserData.mk "document" doc_a2 3 60) :: rest))).
Proof.
  refine (restore_then_history sample_env later_env db_v3 "u1" "t1" "b-1"
            (DataBackup.mk "b-1" "u1" "t1" "document" doc_a1 1 50) []
            (UserData.mk "document" doc_a2 3 60) (Some "3") 3 _ _ _ _ _ _ _ _ _).
  - reflexivity.
  - reflexivity.
  - reflexivity.
  - reflexivity.
  - intros b Hb _. cbn in Hb. apply list_elem_of_singleton in Hb as ->. cbn. lia.
  - reflexivity.
  - reflexivity.
  - reflexivity.
  - lia.
Defined.

(** ** Reads *)

(** The three reads, whatever the store rejects. *)
Lemma reads_frame env d userId threadId (dataType limit : option string) :
  (stored (run (load userId threadId dataType) env d) = d
   /\ working (snd (run (load userId threadId dataType) env d)) = None)
  /\ (stored (run (history userId threadId limit) env d) = d
      /\ working (snd (run (history userId threadId limit) env d)) = None)
  /\ (stored (run (stats userId) env d) = d
      /\ working (snd (run (stats userId) env d)) = None).
Proof.
  unfold stored. split; [| split].
  - exec. destruct (includes data_types (default "both" dataType)); red_sync;
      [| by split].
    split_fault; red_sync; [by split |].
    destruct (user_data d !! (userId, threadId)); by split.
  - exec.
    destruct (match limit with Some s => parseInt s | None => Some 10 end) as [n |];
      [destruct (n <? 0) |];
      repeat (split_fault; red_sync); by split.
  - exec. repeat (split_fault; red_sync); by split.
Qed.

(** X9. Load, History and Stats never change the tables and leave no
    transaction open, whatever the store rejects. *)
Theorem reads_leave_tables env d userId threadId (dataType limit : option string) :
  (stored (run (load userId threadId dataType) env d) = d
   /\ working (snd (run (load userId threadId dataType) env d)) = None)
  /\ (stored (run (history userId threadId limit) env d) = d
      /\ working (snd (run (history userId threadId limit) env d)) = None)
  /\ (stored (run (stats userId) env d) = d
      /\ working (snd (run (stats userId) env d)) = None).
Proof. exact (reads_frame env d userId threadId dataType limit). Qed.

(** ** Statistics *)

(** [updateStorageStats] at the end of a successful operation. *)
Lemma perform_recomputes_stats env d userId op resp :
  (forall s, fails env s = false) ->
  response_of (run (perform userId op) env d) = Some resp ->
  status resp = 200 ->
  storage_stats (stored (run (perform userId op) env d)) !! userId
  = Some (recomputed env userId (stored (run (perform userId op) env d))).
Proof.
  intros Hok.
  destruct op as [[[t |] [dt |] [c |] v f] | t [b |] | t];
    unfold stored, recomputed, rows_of_user; exec.
  all: try (destruct (truthy_str t)); try (destruct (truthy_str dt));
    try destruct (truthy c); red_sync.
  all: try (destruct (includes data_types dt)); red_sync.
  all: try (destruct (truthy_str b)); red_sync.
  all: try solve [intros [= <-]; cbn; discriminate].
  all: crunch_accepted Hok.
  all: try solve [intros [= <-]; cbn; discriminate].
  all: intros _ _; cbn; rewrite sum_default; apply lookup_insert_eq.
Qed.

(** X10. After a Save, Restore or Delete that answers 200 with a store that
    accepts every statement, the user's statistics row is the one recomputed
    from the rows the user then has: the sum of their content lengths and
    their number. *)
Theorem stats_row_recomputed env d userId op resp :
  (forall s, fails env s = false) ->
  response_of (run (perform userId op) env d) = Some resp ->
  status resp = 200 ->
  storage_stats (stored (run (perform userId op) env d)) !! userId
  = Some (recomputed env userId (stored (run (perform userId op) env d))).
Proof. exact (perform_recomputes_stats env d userId op resp). Qed.

Lemma stats_row_recomputed_witness :
  storage_stats (stored (run (perform "u1" (OpDelete "t1")) sample_env db_v3)) !! "u1"
  = Some (recomputed sample_env "u1"
            (stored (run (perform "u1" (OpDelete "t1")) sample_env db_v3))).
Proof.
  refine (stats_row_recomputed sample_env db_v3 "u1" (OpDelete "t1")
            (respond 200 (DeletedBody "Data deleted successfully")) _ _ _); reflexivity.
Defined.

(** X11. Stats after such an operation: the thread count it reports is the one
    in the statistics row it returns. *)
Theorem stats_agree_after_mutation env env' d userId op resp :
  (forall s, fails env s = false) ->
  response_of (run (perform userId op) env d) = Some resp ->
  status resp = 200 ->
  (forall s, fails env' s = false) ->
  exists row backupCount,
    response_of (run (stats userId) env' (stored (run (perform userId op) env d)))
    = Some (respond 200 (StatsBody (Some row) (StorageStats.thread_count row) backupCount)).
Proof.
  intros Hok Hresp Hst Hok'.
  pose proof (perform_recomputes_stats env d userId op resp Hok Hresp Hst) as Hrow.
  set (d1 := stored (run (perform userId op) env d)) in *.
  exists (recomputed env userId d1). eexists.
  exec. accept_all Hok'. rewrite Hrow. reflexivity.
Qed.

Lemma stats_agree_after_mutation_witness :
  exists row backupCount,
    response_of (run (stats "u1") later_env
                   (stored (run (perform "u1" (OpSave (save_req 5 doc_a1))) sample_env db_v3)))
    = Some (respond 200 (StatsBody (Some row) (StorageStats.thread_count row) backupCount)).
Proof.
  refine (stats_agree_after_mutation sample_env later_env db_v3 "u1"
            (OpSave (save_req 5 doc_a1))
            (respond 200 (SyncedBody "Data synced successfully" 5 101)) _ _ _ _); reflexivity.
Defined.

(** ** What a request leaves alone *)

Lemma perform_frame env d userId op :
  (exists extra,
     data_backups (stored (run (perform userId op) env d)) = (data_backups d ++ extra)%list
     /\ (length extra <= 1)%nat
     /\ Forall (fun b => DataBackup.user_id b = userId
                         /\ DataBackup.thread_id b = op_thread op) extra)
  /\ (forall k, k <> (userId, op_thread op) ->
                user_data (stored (run (perform userId op) env d)) !! k = user_data d !! k)
  /\ (forall u, u <> userId ->
                storage_stats (stored (run (perform userId op) env d)) !! u
                = storage_stats d !! u).
Proof.
  unfold stored.
  generalize (eq_refl (snd (run (perform userId op) env d))).
  generalize (snd (run (perform userId op) env d)) at 2 3 4 5.
  intros w'.
  destruct (aborts_on_error env) eqn:Hab.
  all: destruct op as [[[t |] [dt |] [c |] v f] | t [b |] | t]; unfold op_thread.
  all: exec; rewrite ?Hab; red_sync.
  all: try (destruct (truthy_str t)); try (destruct (truthy_str dt));
    try destruct (truthy c); red_sync.
  all: try (destruct (includes data_types dt)); red_sync.
  all: try (destruct (truthy_str b)); red_sync.
  all: crunch Hab.
  all: solve [frame_leaf].
Qed.

(** A route the router hands a request to is one of its routes, and its
    path matched. *)
Lemma find_route_after_handled pending routes m segments r params :
  find_route_after pending routes m segments = Handled r params ->
  r ∈ routes /\ match_path (route_path r) segments = Matched params.
Proof.
  revert pending. induction routes as [| r0 routes IH]; intros pending Hf; cbn in Hf.
  { by destruct pending. }
  destruct (match_path (route_path r0) segments) as [| value | ps] eqn:Hm.
  - apply IH in Hf as [? ?]. split; [by apply list_elem_of_further | done].
  - apply IH in Hf as [? ?]. split; [by apply list_elem_of_further | done].
  - destruct pending as [v |].
    + apply IH in Hf as [? ?]. split; [by apply list_elem_of_further | done].
    + destruct (Method_eqb (route_method r0) m).
      * injection Hf as <- <-. split; [apply list_elem_of_here | done].
      * apply IH in Hf as [? ?]. split; [by apply list_elem_of_further | done].
Qed.

(** The application's error handler writes one log entry and answers. *)
Lemma error_handler_run err_status err_message m env d :
  run (error_handler err_status err_message m) env d
  = (Ok (respond err_status
           (ErrorBody (if production env then "Internal server error" else err_message))),
     mkWorld d None false []
       [mkLog Error "Unhandled error"
          [("error", MStr err_message); ("method", MStr (method_name m))]]).
Proof. reflexivity. Qed.

(** Every request is answered by one of the six handlers, by the 404
    handler or by the error handler. *)
Lemma handle_cases (req : Request) :
  (exists op, handle req = perform (user req) op)
  \/ (exists threadId, handle req = load (user req) threadId (query_dataType req))
  \/ (exists threadId, handle req = history (user req) threadId (query_limit req))
  \/ handle req = stats (user req)
  \/ handle req = mret (respond 404 RouteNotFoundBody)
  \/ (exists value, handle req = error_handler 400 (decode_failure value) (method req)).
Proof.
  unfold handle, dispatch, find_route.
  destruct (find_route_after None router (method req) (path req)) as [r params | value |] eqn:Hf.
  - apply find_route_after_handled in Hf as [Hin _]. unfold router in Hin.
    repeat (apply elem_of_cons in Hin as [-> | Hin]); cbn [route_handler].
    + left. by eexists (OpSave _).
    + right; left. by eexists.
    + right; right; left. by eexists.
    + left. by eexists (OpRestore _ _).
    + left. by eexists (OpDelete _).
    + right; right; right; left. reflexivity.
    + by apply elem_of_nil in Hin.
  - right; right; right; right; right. by eexists.
  - right; right; right; right; left. reflexivity.
Qed.

(** X12. A Save, Restore or Delete, whatever the store rejects, changes no row
    of [user_data] other than the one of its own user and thread, and no
    statistics row of another user. *)
Theorem other_threads_untouched env d userId op :
  (forall k, k <> (userId, op_thread op) ->
             user_data (stored (run (perform userId op) env d)) !! k = user_data d !! k)
  /\ (forall u, u <> userId ->
                storage_stats (stored (run (perform userId op) env d)) !! u
                = storage_stats d !! u).
Proof. exact (proj2 (perform_frame env d userId op)). Qed.

Lemma other_threads_untouched_witness :
  user_data (stored (run (perform "u1" (OpDelete "t1")) sample_env db_two)) !! ("u1", "t2")
  = Some (UserData.mk "spreadsheet" doc_a1 1 40)
  /\ user_data (stored (run (perform "u1" (OpDelete "t1")) delete_fault_env db_two))
       !! ("u1", "t2")
     = Some (UserData.mk "spreadsheet" doc_a1 1 40)
  /\ fails delete_fault_env DeleteUserData = true
  /\ DeleteUserData ∈ issued (snd (run (perform "u1" (OpDelete "t1")) delete_fault_env db_two)).
Proof.
  split; [| split; [| split]].
  - etransitivity.
    + refine (proj1 (other_threads_untouched sample_env db_two "u1" (OpDelete "t1"))
                ("u1", "t2") _).
      discriminate.
    + vm_compute. reflexivity.
  - etransitivity.
    + refine (proj1 (other_threads_untouched delete_fault_env db_two "u1" (OpDelete "t1"))
                ("u1", "t2") _).
      discriminate.
    + vm_compute. reflexivity.
  - reflexivity.
  - vm_compute. repeat constructor.
Defined.

(** X13. Backups are only ever appended: whatever the request and whatever the
    store rejects, the backups it leaves are the earlier ones followed by at
    most one new row, which belongs to the requesting user. *)
Theorem backups_only_grow env d (req : Request) :
  exists extra,
    data_backups (stored (run (handle req) env d)) = (data_backups d ++ extra)%list
    /\ (length extra <= 1)%nat
    /\ Forall (fun b => DataBackup.user_id b = user req) extra.
Proof.
  destruct (handle_cases req) as [[op ->] | [[t ->] | [[t ->] | [-> | [-> | [value ->]]]]]].
  - destruct (perform_frame env d (user req) op) as [(extra & He & Hl & Hall) _].
    exists extra. repeat split; [exact He | exact Hl |].
    eapply Forall_impl; [exact Hall |]. by intros b [? _].
  - exists []. rewrite app_nil_r.
    rewrite (proj1 (proj1 (reads_frame env d (user req) t (query_dataType req) None))).
    repeat split; [cbn; lia | constructor].
  - exists []. rewrite app_nil_r.
    rewrite (proj1 (proj1 (proj2
         (reads_frame env d (user req) t None (query_limit req))))).
    repeat split; [cbn; lia | constructor].
  - exists []. rewrite app_nil_r.
    rewrite (proj1 (proj2 (proj2 (reads_frame env d (user req) "" None None)))).
    repeat split; [cbn; lia | constructor].
  - exists []. rewrite app_nil_r. repeat split; [cbn; lia | constructor].
  - exists []. rewrite app_nil_r. repeat split; [cbn; lia | constructor].
Qed.

(** What a request leaves of the other users. *)
Lemma handle_frame env d (req : Request) other :
  other <> user req ->
  (forall threadId,
     user_data (stored (run (handle req) env d)) !! (other, threadId)
     = user_data d !! (other, threadId))
  /\ storage_stats (stored (run (handle req) env d)) !! other = storage_stats d !! other
  /\ filter (fun b => DataBackup.user_id b = other)
       (data_backups (stored (run (handle req) env d)))
     = filter (fun b => DataBackup.user_id b = other) (data_backups d).
Proof.
  intros Hother.
  destruct (handle_cases req) as [[op ->] | [[t ->] | [[t ->] | [-> | [-> | [value ->]]]]]].
  - destruct (perform_frame env d (user req) op) as [(extra & He & _ & Hall) [Hrows Hstats]].
    split; [| split].
    + intros threadId. apply Hrows. congruence.
    + by apply Hstats.
    + rewrite He, filter_app.
      replace (filter (fun b => DataBackup.user_id b = other) extra) with (@nil DataBackup.t).
      { by rewrite app_nil_r. }
      symmetry. apply elem_of_nil_inv. intros b Hb.
      apply list_elem_of_filter in Hb as [Hu Hin].
      rewrite Forall_forall in Hall. destruct (Hall b Hin) as [Hu' _]. congruence.
  - by rewrite (proj1 (proj1 (reads_frame env d (user req) t (query_dataType req) None))).
  - by rewrite (proj1 (proj1 (proj2
         (reads_frame env d (user req) t None (query_limit req))))).
  - by rewrite (proj1 (proj2 (proj2 (reads_frame env d (user req) "" None None)))).
  - by repeat split.
  - by repeat split.
Qed.

(** X14. No request changes anything of another user: the rows, the statistics
    row and the backups of every other user are as they were. *)
Theorem requests_touch_only_their_user env d (req : Request) other :
  other <> user req ->
  (forall threadId,
     user_data (stored (run (handle req) env d)) !! (other, threadId)
     = user_data d !! (other, threadId))
  /\ storage_stats (stored (run (handle req) env d)) !! other = storage_stats d !! other
  /\ filter (fun b => DataBackup.user_id b = other)
       (data_backups (stored (run (handle req) env d)))
     = filter (fun b => DataBackup.user_id b = other) (data_backups d).
Proof. exact (handle_frame env d req other). Qed.

Lemma requests_touch_only_their_user_witness :
  storage_stats
    (stored (run (handle (mkRequest DELETE ["t1"] None None (save_req 1 doc_a1) None "u2"))
               sample_env db_v3)) !! "u1"
  = storage_stats db_v3 !! "u1".
Proof.
  refine (proj1 (proj2 (requests_touch_only_their_user sample_env db_v3
            (mkRequest DELETE ["t1"] None None (save_req 1 doc_a1) None "u2") "u1" _))).
  discriminate.
Defined.

(** X15. Every request is answered: no exception leaves a handler, whatever the
    store rejects (a rejected ROLLBACK included). *)
Theorem every_request_is_answered env d (req : Request) :
  exists resp, response_of (run (handle req) env d) = Some resp.
Proof.
  destruct (handle_cases req) as [[op ->] | [[t ->] | [[t ->] | [-> | [-> | [value ->]]]]]].
  - pose proof (perform_classified env d (user req) op) as H.
    unfold response_of.
    destruct (run (perform (user req) op) env d) as [[resp | e] w']; [eauto | contradiction].
  - exec. destruct (includes data_types (default "both" (query_dataType req))); red_sync;
      [| eauto].
    split_fault; red_sync; [eauto |].
    destruct (user_data d !! (user req, t)); eauto.
  - exec.
    destruct (match query_limit req with Some s => parseInt s | None => Some 10 end) as [n |];
      [destruct (n <? 0) |];
      repeat (split_fault; red_sync); eauto.
  - exec. repeat (split_fault; red_sync); eauto.
  - eauto.
  - eauto.
Qed.

(** ** The route table *)

Lemma captures_length pattern segments params :
  captures pattern segments = Some params -> length segments = length pattern.
Proof.
  revert segments params.
  induction pattern as [| [l | name] pattern IH]; intros [| seg segments] params;
    cbn -[String.eqb]; try discriminate; [reflexivity | |].
  - destruct (String.eqb (to_lower l) (to_lower seg)); [| discriminate].
    intros H. f_equal. eauto.
  - destruct (truthy_str seg); [| discriminate].
    destruct (captures pattern segments) eqn:Hm; [| discriminate].
    intros _. f_equal. eauto.
Qed.

Lemma no_match_by_length pattern segments :
  length segments <> length pattern -> match_path pattern segments = NoMatch.
Proof.
  intros Hne. unfold match_path.
  destruct (captures pattern segments) eqn:Hm; [| reflexivity].
  apply captures_length in Hm. contradiction.
Qed.

Lemma no_match_by_word name word threadId other :
  to_lower other <> to_lower word ->
  match_path [Param name; Lit word] [threadId; other] = NoMatch.
Proof.
  intros Hne. unfold match_path. cbn -[String.eqb to_lower].
  apply String.eqb_neq in Hne. rewrite String.eqb_sym in Hne. rewrite Hne.
  by destruct (truthy_str threadId).
Qed.

(** X16. Which handler answers which request.  The thread id a handler is
    given is the first segment of the path, percent-decoded; the words
    history and restore are matched on the path as it was sent, in any letter
    case; and a first segment that cannot be decoded is answered by the
    error handler with status 400, whatever the method. *)
Theorem routes_reach_their_handlers segment word dataType limit body backupId userId :
  truthy_str segment = true ->
  handle (mkRequest POST [] dataType limit body backupId userId) = save userId body
  /\ (forall threadId,
        decodeURIComponent segment = Some threadId ->
        handle (mkRequest GET [segment] dataType limit body backupId userId)
        = load userId threadId dataType
        /\ handle (mkRequest DELETE [segment] dataType limit body backupId userId)
           = delete_data userId threadId
        /\ (to_lower word = "history" ->
            handle (mkRequest GET [segment; word] dataType limit body backupId userId)
            = history userId threadId limit)
        /\ (to_lower word = "restore" ->
            handle (mkRequest POST [segment; word] dataType limit body backupId userId)
            = restore userId threadId backupId))
  /\ (decodeURIComponent segment = None ->
      forall m,
        handle (mkRequest m [segment] dataType limit body backupId userId)
        = error_handler 400 (decode_failure segment) m).
Proof.
  intros Ht.
  assert (Hone : forall name,
            match_path [Param name] [segment]
            = match decodeURIComponent segment with
              | Some threadId => Matched [(name, threadId)]
              | None => Undecodable segment
              end).
  { intros name. unfold match_path. cbn -[decodeURIComponent truthy_str]. rewrite Ht.
    cbn -[decodeURIComponent]. by destruct (decodeURIComponent segment). }
  assert (Htwo : forall name lit,
            to_lower word = to_lower lit ->
            match_path [Param name; Lit lit] [segment; word]
            = match decodeURIComponent segment with
              | Some threadId => Matched [(name, threadId)]
              | None => Undecodable segment
              end).
  { intros name lit Hw. unfold match_path.
    cbn -[decodeURIComponent truthy_str String.eqb to_lower]. rewrite Ht, Hw, String.eqb_refl.
    cbn -[decodeURIComponent]. by destruct (decodeURIComponent segment). }
  unfold handle, router, dispatch, find_route.
  split; [reflexivity | split].
  - intros threadId Hdec.
    split; [| split; [| split; intros Hw]].
    all: cbn [find_route_after route_method route_path method path].
    4: rewrite (no_match_by_word "threadId" "history" segment word)
         by (rewrite Hw; discriminate).
    all: repeat first
           [ rewrite no_match_by_length by (cbn; lia)
           | rewrite Hone, Hdec
           | rewrite Htwo, Hdec by exact Hw
           | progress cbn [find_route_after route_method route_path route_handler method path
                           Method_eqb] ].
    all: reflexivity.
  - intros Hdec m.
    repeat first
      [ rewrite no_match_by_length by (cbn; lia)
      | rewrite Hone, Hdec
      | progress cbn [find_route_after route_method route_path route_handler method path
                      Method_eqb default] ].
    by destruct (match_path [Lit "stats"] [segment]).
Qed.

Lemma routes_reach_their_handlers_witness :
  handle (mkRequest GET ["Report%207"; "HISTORY"] None (Some "3") (save_req 1 doc_a1) None "u1")
  = history "u1" "Report 7" (Some "3").
Proof.
  refine (proj1 (proj2 (proj2
    (proj1 (proj2
       (routes_reach_their_handlers "Report%207" "HISTORY" None (Some "3") (save_req 1 doc_a1)
          None "u1" _))
       "Report 7" _))) _); reflexivity.
Defined.

Lemma match_literal word segment :
  match_path [Lit word] [segment] = NoMatch \/ match_path [Lit word] [segment] = Matched [].
Proof.
  unfold match_path. cbn -[String.eqb to_lower].
  destruct (String.eqb (to_lower word) (to_lower segment)); [by right | by left].
Qed.

(** A path of one segment that can be decoded matches the routes of one
    parameter, or none if it is empty. *)
Lemma match_one_segment name segment :
  first_decodes [segment] = true ->
  match_path [Param name] [segment] = NoMatch
  \/ exists threadId, match_path [Param name] [segment] = Matched [(name, threadId)].
Proof.
  unfold first_decodes, match_path. cbn -[decodeURIComponent].
  destruct (truthy_str segment); [| by left]. cbn -[decodeURIComponent].
  destruct (decodeURIComponent segment) as [threadId |]; [| discriminate].
  intros _. right. by exists threadId.
Qed.

Lemma match_two_segments name word segment other :
  first_decodes [segment] = true ->
  match_path [Param name; Lit word] [segment; other] = NoMatch
  \/ exists threadId,
       match_path [Param name; Lit word] [segment; other] = Matched [(name, threadId)].
Proof.
  unfold first_decodes, match_path. cbn -[decodeURIComponent String.eqb to_lower].
  destruct (truthy_str segment); [| by left].
  destruct (String.eqb (to_lower word) (to_lower other)); [| by left].
  cbn -[decodeURIComponent].
  destruct (decodeURIComponent segment) as [threadId |]; [| discriminate].
  intros _. right. by exists threadId.
Qed.

(** X17. Requests no route matches are answered by the 404 handler without a
    statement being sent: PUT, three or more segments, POST with one segment,
    GET or DELETE with none, and two segments whose second is neither word.
    For PUT, and for POST with one segment, this is so when the first segment
    can be decoded (when it cannot, the error handler answers). *)
Theorem unrouted_requests_get_404 env d (req : Request) :
  (method req = PUT /\ first_decodes (path req) = true)
  \/ (3 <= length (path req))%nat
  \/ (method req = POST /\ length (path req) = 1%nat /\ first_decodes (path req) = true)
  \/ (method req <> POST /\ path req = [])
  \/ (exists threadId word,
        path req = [threadId; word]
        /\ to_lower word <> "history" /\ to_lower word <> "restore") ->
  run (handle req) env d = (Ok (respond 404 RouteNotFoundBody), idle d).
Proof.
  destruct req as [m p dt lim body bid u]. cbn [method path].
  intros H. unfold handle, router, dispatch, find_route.
  cbn [find_route_after route_method route_path route_handler method path].
  destruct H as [[-> Hdec] | [H | [(-> & H & Hdec) | [[Hm ->] | (t & w & -> & Hh & Hr)]]]].
  - destruct p as [| seg [| word [| x rest]]];
      [ | destruct (match_one_segment "threadId" seg Hdec) as [-> | [t ->]]
        | destruct (match_two_segments "threadId" "history" seg word Hdec) as [-> | [t ->]];
          destruct (match_two_segments "threadId" "restore" seg word Hdec) as [-> | [t' ->]]
        | ].
    all: repeat first
           [ rewrite no_match_by_length by (cbn; lia)
           | progress cbn [find_route_after route_method route_path route_handler method path
                           Method_eqb]
           | match goal with
             | |- context [match_path [Lit ?l] [?s]] =>
                 destruct (match_literal l s) as [-> | ->]
             end ].
    all: reflexivity.
  - rewrite !no_match_by_length by (cbn; lia). reflexivity.
  - destruct p as [| seg [| word rest]]; try discriminate H.
    destruct (match_one_segment "threadId" seg Hdec) as [-> | [t ->]].
    all: repeat first
           [ rewrite no_match_by_length by (cbn; lia)
           | progress cbn [find_route_after route_method route_path route_handler method path
                           Method_eqb]
           | match goal with
             | |- context [match_path [Lit ?l] [?s]] =>
                 destruct (match_literal l s) as [-> | ->]
             end ].
    all: reflexivity.
  - destruct m; try contradiction; reflexivity.
  - rewrite (no_match_by_word "threadId" "history" t w Hh).
    rewrite (no_match_by_word "threadId" "restore" t w Hr).
    rewrite !no_match_by_length by (cbn; lia). reflexivity.
Qed.

Lemma unrouted_requests_get_404_witness :
  run (handle (mkRequest POST ["t1"] None None (save_req 1 doc_a1) None "u1")) sample_env db_v3
  = (Ok (respond 404 RouteNotFoundBody), idle db_v3).
Proof.
  refine (unrouted_requests_get_404 sample_env db_v3
            (mkRequest POST ["t1"] None None (save_req 1 doc_a1) None "u1") _).
  right. right. left. repeat split; reflexivity.
Defined.

(** ** Composition of operations *)

(** X18. The version Restore reports after overwriting a row is one below the
    stored one: a Save that supplies it, force off, is answered 409, with the
    stored version and the restored content, which is the backup's as the
    driver passed it on ([pg_param]). *)
Theorem save_after_restore_conflicts env env' d userId threadId backupId
    (backupData : DataBackup.t) others row (req : SyncRequest.t) reported restoredAt :
  (forall s, fails env s = false) ->
  truthy_str backupId = true ->
  filter (fun b => DataBackup.id b = backupId /\ DataBackup.user_id b = userId)
    (data_backups d) = backupData :: others ->
  user_data d !! (userId, threadId) = Some row ->
  response_of (run (restore userId threadId (Some backupId)) env d)
  = Some (respond 200 (RestoredBody "Data restored successfully" reported restoredAt)) ->
  passes_validation req = true ->
  SyncRequest.threadId req = Some threadId ->
  SyncRequest.version req = Some reported ->
  default false (SyncRequest.force req) = false ->
  fails env' SelectUserData = false ->
  response_of (run (save userId req) env'
                 (stored (run (restore userId threadId (Some backupId)) env d)))
  = Some (respond 409
            (ConflictBody "Version conflict" (reported + 1)
               (pg_param env (DataBackup.content backupData)) (db_now env))).
Proof.
  intros Hok Hid Hfound Hrow Hresp Hvalid Hthread Hversion Hforce Hsel.
  destruct (restore_stored env d userId threadId backupId backupData others Hok Hid Hfound)
    as [Hr ->].
  rewrite Hr in Hresp. injection Hresp as <- _.
  destruct (passes_validation_inv req Hvalid) as (t & dt & c & Hreq & Ht & Hdt' & Hc & Hdt).
  rewrite Hreq in Hthread. cbn in Hthread. injection Hthread as ->.
  rewrite Hreq. rewrite Hversion. rewrite Hrow.
  exec. rewrite Ht, Hdt', Hc, Hdt. red_sync. rewrite Hsel. red_sync.
  rewrite lookup_insert_eq. red_sync. rewrite Hforce.
  replace (DataBackup.version backupData + 1 >? DataBackup.version backupData) with true
    by (symmetry; rewrite Z.gtb_ltb; apply Z.ltb_lt; lia).
  reflexivity.
Qed.

Lemma save_after_restore_conflicts_witness :
  response_of (run (save "u1" (save_req 1 doc_a2)) later_env
                 (stored (run (restore "u1" "t1" (Some "b-1")) sample_env db_v3)))
  = Some (respond 409 (ConflictBody "Version conflict" (1 + 1) doc_a1 100)).
Proof.
  refine (save_after_restore_conflicts sample_env later_env db_v3 "u1" "t1" "b-1"
            (DataBackup.mk "b-1" "u1" "t1" "document" doc_a1 1 50) []
            (UserData.mk "document" doc_a2 3 60) (save_req 1 doc_a2) 1 101
            _ _ _ _ _ _ _ _ _ _); reflexivity.
Defined.

(** X19. Restoring the backup a Delete wrote (its id not carried by an
    earlier backup) gives the thread back its data type and version, and its
    content as the driver passed it on twice, once into the backup and once
    out of it ([pg_param]); a content that is an object comes back as it
    was. *)
Theorem restore_undoes_delete env env' d userId threadId row :
  (forall s, fails env s = false) ->
  (forall s, fails env' s = false) ->
  user_data d !! (userId, threadId) = Some row ->
  truthy_str (gen_random_uuid env) = true ->
  (forall b, b ∈ data_backups d -> DataBackup.id b <> gen_random_uuid env) ->
  user_data
    (stored (run (restore userId threadId (Some (gen_random_uuid env))) env'
               (stored (run (delete_data userId threadId) env d))))
    !! (userId, threadId)
  = Some (UserData.mk (UserData.data_type row)
            (pg_param env' (pg_param env (UserData.content row)))
            (UserData.version row) (db_now env'))
  /\ (forall fields,
        UserData.content row = JObj fields ->
        pg_param env' (pg_param env (UserData.content row)) = UserData.content row).
Proof.
  intros Hok Hok' Hrow Hid Hfresh.
  split; [| by intros fields ->].
  unfold stored at 2. rewrite (delete_stored env d userId threadId Hok). cbn [snd committed].
  rewrite Hrow. cbn [option_list fmap list_fmap].
  set (snapshot :=
         capture (gen_random_uuid env) userId threadId (db_now env) (passed_on env row)).
  set (d1 := set_storage_stats _ _).
  assert (Hfound :
    filter (fun b => DataBackup.id b = gen_random_uuid env /\ DataBackup.user_id b = userId)
      (data_backups d1) = [snapshot]).
  { subst d1. cbn [set_storage_stats data_backups]. rewrite filter_app.
    replace (filter _ (data_backups d)) with (@nil DataBackup.t).
    - csimpl. rewrite filter_cons_True by (split; reflexivity). reflexivity.
    - symmetry. apply elem_of_nil_inv. intros b Hb.
      apply list_elem_of_filter in Hb as [[Hb _] Hin]. exact (Hfresh b Hin Hb). }
  destruct (restore_stored env' d1 userId threadId (gen_random_uuid env) snapshot []
              Hok' Hid Hfound) as [_ ->].
  cbn [set_storage_stats user_data]. rewrite lookup_insert_eq.
  subst d1. cbn [set_storage_stats user_data]. rewrite lookup_delete_eq. reflexivity.
Qed.

Lemma restore_undoes_delete_witness :
  user_data
    (stored (run (restore "u1" "t1" (Some "b-new")) later_env
               (stored (run (delete_data "u1" "t1") sample_env db_v3))))
    !! ("u1", "t1")
  = Some (UserData.mk "document" doc_a2 3 200).
Proof.
  refine (proj1 (restore_undoes_delete sample_env later_env db_v3 "u1" "t1"
            (UserData.mk "document" doc_a2 3 60) _ _ _ _ _)); try reflexivity.
  intros b Hb. cbn in Hb. apply list_elem_of_singleton in Hb as ->. discriminate.
Defined.

(** ** What a response depends on *)

Lemma rows_of_user_length userId d1 d2 :
  (forall threadId,
     user_data d1 !! (userId, threadId) = user_data d2 !! (userId, threadId)) ->
  length (rows_of_user userId d1) = length (rows_of_user userId d2).
Proof.
  intros Hrows. unfold rows_of_user. rewrite !length_fmap.
  set (P := fun kv : string * string * UserData.t => fst (fst kv) = userId).
  assert (Hperm : forall m : gmap (string * string) UserData.t,
            map_to_list (filter P m) ≡ₚ filter P (map_to_list m)).
  { intros m. rewrite map_filter_alt. apply map_to_list_to_map.
    eapply sublist_NoDup; [apply (NoDup_fst_map_to_list m) |].
    apply fmap_sublist, sublist_filter. }
  rewrite <- !Hperm.
  replace (filter P (user_data d2)) with (filter P (user_data d1)); [reflexivity |].
  apply map_filter_strong_ext_1. intros [u t] x. unfold P. cbn.
  split; intros [-> H]; (split; [reflexivity |]); by rewrite <- H, ?Hrows.
Qed.

Lemma own_backup_by_id userId backupId (l1 l2 : list DataBackup.t) :
  filter (fun b => DataBackup.user_id b = userId) l1
  = filter (fun b => DataBackup.user_id b = userId) l2 ->
  filter (fun b => DataBackup.id b = backupId /\ DataBackup.user_id b = userId) l1
  = filter (fun b => DataBackup.id b = backupId /\ DataBackup.user_id b = userId) l2.
Proof.
  intros H.
  rewrite <- (list_filter_filter_l _ (fun b => DataBackup.user_id b = userId) l1) by tauto.
  rewrite <- (list_filter_filter_l _ (fun b => DataBackup.user_id b = userId) l2) by tauto.
  by rewrite H.
Qed.

Lemma own_backups_of_thread userId threadId (l1 l2 : list DataBackup.t) :
  filter (fun b => DataBackup.user_id b = userId) l1
  = filter (fun b => DataBackup.user_id b = userId) l2 ->
  filter (fun b => matches_thread userId threadId b = true) l1
  = filter (fun b => matches_thread userId threadId b = true) l2.
Proof.
  intros H.
  rewrite <- (list_filter_filter_l _ (fun b => DataBackup.user_id b = userId) l1)
    by (intros b Hb; by apply matches_thread_true in Hb as [? _]).
  rewrite <- (list_filter_filter_l _ (fun b => DataBackup.user_id b = userId) l2)
    by (intros b Hb; by apply matches_thread_true in Hb as [? _]).
  by rewrite H.
Qed.

Lemma perform_response_own_rows env d1 d2 userId op :
  (forall threadId,
     user_data d1 !! (userId, threadId) = user_data d2 !! (userId, threadId)) ->
  filter (fun b => DataBackup.user_id b = userId) (data_backups d1)
  = filter (fun b => DataBackup.user_id b = userId) (data_backups d2) ->
  response_of (run (perform userId op) env d1) = response_of (run (perform userId op) env d2).
Proof.
  intros Hrows Hbackups.
  destruct (aborts_on_error env) eqn:Hab.
  all: destruct op as [[[t |] [dt |] [c |] v f] | t [b |] | t].
  all: unfold response_of; exec; rewrite ?Hab; red_sync.
  all: try (destruct (truthy_str t)); try (destruct (truthy_str dt));
    try destruct (truthy c); red_sync.
  all: try (destruct (includes data_types dt)); red_sync.
  all: try (destruct (truthy_str b)); red_sync.
  all: try reflexivity.
  all: rewrite <- ?(own_backup_by_id userId _ _ _ Hbackups).
  all: crunch_pair Hab Hrows.
  all: reflexivity.
Qed.

(** X20. The answer to a request depends on the tables only through what
    belongs to the requesting user: with the same rows, backups and
    statistics row of that user, the answer is the same whatever the other
    users have stored. *)
Theorem responses_depend_on_own_rows env d1 d2 (req : Request) :
  (forall threadId,
     user_data d1 !! (user req, threadId) = user_data d2 !! (user req, threadId)) ->
  filter (fun b => DataBackup.user_id b = user req) (data_backups d1)
  = filter (fun b => DataBackup.user_id b = user req) (data_backups d2) ->
  storage_stats d1 !! user req = storage_stats d2 !! user req ->
  response_of (run (handle req) env d1) = response_of (run (handle req) env d2).
Proof.
  intros Hrows Hbackups Hstats.
  destruct (handle_cases req) as [[op ->] | [[t ->] | [[t ->] | [-> | [-> | [value ->]]]]]].
  - by apply perform_response_own_rows.
  - exec. destruct (includes data_types (default "both" (query_dataType req))); red_sync;
      [| reflexivity].
    split_fault; red_sync; [reflexivity |]. rewrite <- Hrows.
    destruct (user_data d1 !! (user req, t)); reflexivity.
  - exec.
    destruct (match query_limit req with Some s => parseInt s | None => Some 10 end) as [n |];
      [destruct (n <? 0) |];
      repeat (split_fault; red_sync);
      rewrite <- ?Hrows, <- ?(own_backups_of_thread (user req) t _ _ Hbackups);
      try destruct (user_data d1 !! (user req, t)); reflexivity.
  - exec. repeat (split_fault; red_sync);
      rewrite <- ?Hstats, <- ?Hbackups, <- ?(rows_of_user_length (user req) d1 d2 Hrows);
      reflexivity.
  - reflexivity.
  - reflexivity.
Qed.

Lemma responses_depend_on_own_rows_witness :
  response_of (run (handle (mkRequest GET ["t1"] None None (save_req 1 doc_a1) None "u2"))
                 sample_env db_v3)
  = response_of (run (handle (mkRequest GET ["t1"] None None (save_req 1 doc_a1) None "u2"))
                   sample_env empty_db).
Proof.
  refine (responses_depend_on_own_rows sample_env db_v3 empty_db
            (mkRequest GET ["t1"] None None (save_req 1 doc_a1) None "u2") _ _ _).
  - intros threadId. cbn. rewrite lookup_empty. apply lookup_singleton_ne. congruence.
  - reflexivity.
  - reflexivity.
Defined.

(** ** The authentication middleware *)

Lemma split_space_spaceless (w : string) :
  spaceless w = true -> split_space w = [w].
Proof.
  induction w as [| c w IH]; [reflexivity |]. cbn.
  destruct (Ascii.eqb c " "); [discriminate |]. cbn. intros H. by rewrite (IH H).
Qed.

Lemma split_space_word (w rest : string) :
  spaceless w = true -> split_space (w ++ String " " rest) = w :: split_space rest.
Proof.
  induction w as [| c w IH]; [reflexivity |]. simpl.
  destruct (Ascii.eqb c " "); [discriminate |]. simpl. intros H. by rewrite (IH H).
Qed.

Lemma truthy_str_app_space (w rest : string) : truthy_str (w ++ String " " rest) = true.
Proof. by destruct w. Qed.

Lemma bearer_token_word (w rest : string) :
  spaceless w = true ->
  bearer_token (Some (w ++ String " " rest)) = head (split_space rest).
Proof.
  intros H. unfold bearer_token. rewrite truthy_str_app_space, split_space_word by done.
  by destruct (split_space rest).
Qed.

(** X21. The middleware takes as token the text after the first space of the
    Authorization header, up to the next space; it does not look at the word
    before it. *)
Theorem requireAuth_ignores_scheme env a (scheme token more : string) :
  spaceless scheme = true ->
  spaceless token = true ->
  bearer_token (Some (scheme ++ " " ++ token)) = Some token
  /\ bearer_token (Some (scheme ++ " " ++ token ++ " " ++ more)) = Some token
  /\ fst (authenticateToken env a (Some (scheme ++ " " ++ token)))
     = fst (authenticateToken env a (Some ("Bearer " ++ token))).
Proof.
  intros Hs Ht.
  assert (H1 : forall w, spaceless w = true ->
                         bearer_token (Some (w ++ " " ++ token)) = Some token).
  { intros w Hw. change (w ++ " " ++ token) with (w ++ String " " token).
    rewrite bearer_token_word by done. by rewrite split_space_spaceless. }
  split; [by apply H1 |]. split.
  - change (scheme ++ " " ++ token ++ " " ++ more)
      with (scheme ++ String " " (token ++ String " " more)).
    rewrite bearer_token_word by done. by rewrite split_space_word.
  - unfold authenticateToken. rewrite (H1 scheme Hs).
    change ("Bearer " ++ token) with ("Bearer" ++ " " ++ token).
    rewrite (H1 "Bearer" eq_refl).
    destruct (js_not truthy_str (Some token)); [reflexivity |].
    destruct (verifyToken env (default "" (Some token))); [| reflexivity].
    destruct (auth_fails env SelectUserById); [reflexivity |].
    destruct (select_user_by_id _ a); [reflexivity |].
    destruct (auth_fails env TouchSession); reflexivity.
Qed.

Lemma requireAuth_ignores_scheme_witness :
  fst (authenticateToken sample_auth_env sample_auth_world (Some ("Basic" ++ " " ++ "tok-u1")))
  = fst (authenticateToken sample_auth_env sample_auth_world (Some ("Bearer " ++ "tok-u1"))).
Proof.
  refine (proj2 (proj2 (requireAuth_ignores_scheme sample_auth_env sample_auth_world
                          "Basic" "tok-u1" "" _ _))); reflexivity.
Defined.

(** X22. Without a token the middleware answers 401 and touches nothing: no
    header, a header without a space, or nothing between the first space and
    the next one or the end. *)
Theorem requireAuth_requires_token env a (authorization : option string) :
  authorization = None
  \/ (exists word, authorization = Some word /\ spaceless word = true)
  \/ (exists word, authorization = Some (word ++ " ") /\ spaceless word = true)
  \/ (exists word more, authorization = Some (word ++ "  " ++ more) /\ spaceless word = true) ->
  authenticateToken env a authorization
  = (Responded (respond 401 (ErrorBody "Access token required")), a).
Proof.
  intros H. unfold authenticateToken.
  assert (Htoken : js_not truthy_str (bearer_token authorization) = true).
  { destruct H as [-> | [(w & -> & Hw) | [(w & -> & Hw) | (w & more & -> & Hw)]]].
    - reflexivity.
    - unfold bearer_token. destruct (truthy_str w) eqn:Ht.
      + by rewrite split_space_spaceless.
      + cbn. by rewrite Ht.
    - change (w ++ " ") with (w ++ String " " ""). by rewrite bearer_token_word.
    - change (w ++ "  " ++ more) with (w ++ String " " (String " " more)).
      by rewrite bearer_token_word. }
  by rewrite Htoken.
Qed.

Lemma requireAuth_requires_token_witness :
  authenticateToken sample_auth_env sample_auth_world (Some "tok-u1")
  = (Responded (respond 401 (ErrorBody "Access token required")), sample_auth_world).
Proof.
  refine (requireAuth_requires_token sample_auth_env sample_auth_world (Some "tok-u1") _).
  right. left. exists "tok-u1". split; reflexivity.
Defined.

Lemma authenticateToken_next env a authorization user a' :
  authenticateToken env a authorization = (Next user, a') ->
  exists token decoded,
    bearer_token authorization = Some token /\ token <> ""
    /\ verifyToken env token = Some decoded
    /\ TokenPayload.userId decoded = Some (User.id user)
    /\ user ∈ users a
    /\ a' = set_sessions (fmap (touch_session (sha256_hex env token) (auth_now env))) a.
Proof.
  unfold authenticateToken.
  destruct (bearer_token authorization) as [token |]; [| cbn; discriminate].
  cbn [js_not default]. unfold id.
  destruct (truthy_str token) eqn:Htoken; [| cbn; discriminate]. cbn [negb].
  destruct (verifyToken env token) as [decoded |] eqn:Hverify; [| cbn; discriminate].
  destruct (auth_fails env SelectUserById); [cbn; discriminate |].
  destruct (select_user_by_id (TokenPayload.userId decoded) a) as [| u rest] eqn:Hsel;
    [cbn; discriminate |].
  destruct (auth_fails env TouchSession); [cbn; discriminate |].
  intros [= <- <-]. exists token, decoded.
  assert (Hin : u ∈ select_user_by_id (TokenPayload.userId decoded) a)
    by (rewrite Hsel; apply list_elem_of_here).
  unfold select_user_by_id in Hin.
  destruct (TokenPayload.userId decoded) as [i |]; [| by apply elem_of_nil in Hin].
  apply list_elem_of_filter in Hin as [Hid Hin].
  repeat split; try done.
  - intros ->. discriminate.
  - by rewrite Hid.
Qed.

(** X23. When the middleware calls [next], the secret is set, the token was
    accepted by [jwt.verify], [req.user] is a row of [users] whose id is the
    payload's [userId], and nothing changed but [last_used] of the sessions
    with the token's hash. *)
Theorem requireAuth_next_sound env a authorization user a' :
  authenticateToken env a authorization = (Next user, a') ->
  exists token secret decoded,
    bearer_token authorization = Some token /\ token <> ""
    /\ JWT_SECRET env = Some secret /\ secret <> ""
    /\ jwt_verify env token secret = Some decoded
    /\ TokenPayload.userId decoded = Some (User.id user)
    /\ user ∈ users a
    /\ a' = set_sessions (fmap (touch_session (sha256_hex env token) (auth_now env))) a.
Proof.
  intros H. destruct (authenticateToken_next env a authorization user a' H)
    as (token & decoded & Htok & Hne & Hver & Hid & Hin & Ha).
  unfold verifyToken in Hver.
  destruct (JWT_SECRET env) as [secret |]; [| discriminate]. cbn in Hver.
  destruct (truthy_str secret) eqn:Hsecret; [| discriminate]. cbn in Hver.
  exists token, secret, decoded. repeat split; try done.
  intros ->. discriminate.
Qed.


Lemma requireAuth_next_sound_witness :
  exists token secret decoded,
    bearer_token (Some "Bearer tok-u1") = Some token /\ token <> ""
    /\ JWT_SECRET sample_auth_env = Some secret /\ secret <> ""
    /\ jwt_verify sample_auth_env token secret = Some decoded
    /\ TokenPayload.userId decoded
       = Some (User.id (User.mk "u1" "ann@example.org" (Some "Ann") None))
    /\ User.mk "u1" "ann@example.org" (Some "Ann") None ∈ users sample_auth_world
    /\ set_sessions (fmap (touch_session "#tok-u1" 300)) sample_auth_world
       = set_sessions (fmap (touch_session (sha256_hex sample_auth_env token)
                               (auth_now sample_auth_env))) sample_auth_world.
Proof.
  refine (requireAuth_next_sound sample_auth_env sample_auth_world (Some "Bearer tok-u1")
            (User.mk "u1" "ann@example.org" (Some "Ann") None)
            (set_sessions (fmap (touch_session "#tok-u1" 300)) sample_auth_world) _).
  reflexivity.
Defined.

Lemma authenticateToken_sessions env a sessions authorization :
  fst (authenticateToken env (mkAuthWorld (users a) sessions (auth_logged a)) authorization)
  = fst (authenticateToken env a authorization).
Proof.
  unfold authenticateToken, select_user_by_id. cbn [users].
  destruct (js_not truthy_str (bearer_token authorization)); [reflexivity |].
  destruct (verifyToken env _) as [decoded |]; [| reflexivity].
  destruct (auth_fails env SelectUserById); [reflexivity |].
  destruct (match TokenPayload.userId decoded with
            | Some i => filter (fun u => User.id u = i) (users a)
            | None => []
            end); [reflexivity |].
  destruct (auth_fails env TouchSession); reflexivity.
Qed.

Lemma authenticateToken_log env a entry authorization :
  fst (authenticateToken env (log_auth entry a) authorization)
  = fst (authenticateToken env a authorization).
Proof.
  unfold authenticateToken, select_user_by_id. cbn [users log_auth].
  destruct (js_not truthy_str (bearer_token authorization)); [reflexivity |].
  destruct (verifyToken env _) as [decoded |]; [| reflexivity].
  destruct (auth_fails env SelectUserById); [reflexivity |].
  destruct (match TokenPayload.userId decoded with
            | Some i => filter (fun u => User.id u = i) (users a)
            | None => []
            end); [reflexivity |].
  destruct (auth_fails env TouchSession); reflexivity.
Qed.

(** X24. Logout removes the sessions stored for the token, and the middleware
    goes on accepting the token exactly as before: it never reads
    [user_sessions]. *)
Theorem logout_does_not_revoke env a (authorization : option string) :
  fst (authenticateToken env (snd (logout env a authorization)) authorization)
  = fst (authenticateToken env a authorization)
  /\ (forall token,
        bearer_token authorization = Some token ->
        token <> "" ->
        auth_fails env DeleteSession = false ->
        fst (logout env a authorization)
        = respond 200 (DeletedBody "Logged out successfully")
        /\ Forall (fun s => UserSession.token_hash s <> sha256_hex env token)
             (user_sessions (snd (logout env a authorization)))).
Proof.
  split.
  - unfold logout.
    destruct (js_not truthy_str (bearer_token authorization)); [reflexivity |].
    destruct (auth_fails env DeleteSession); cbn [snd].
    + apply authenticateToken_log.
    + rewrite authenticateToken_log. apply authenticateToken_sessions.
  - intros token Htoken Hne Hfail. unfold logout. rewrite Htoken, Hfail.
    destruct token as [| c token]; [done |]. cbn.
    split; [reflexivity |].
    apply Forall_forall. intros s Hs. by apply list_elem_of_filter in Hs as [Hs _].
Qed.

Lemma logout_does_not_revoke_witness :
  fst (logout sample_auth_env sample_auth_world (Some "Bearer tok-u1"))
  = respond 200 (DeletedBody "Logged out successfully")
  /\ Forall (fun s => UserSession.token_hash s <> sha256_hex sample_auth_env "tok-u1")
       (user_sessions (snd (logout sample_auth_env sample_auth_world (Some "Bearer tok-u1")))).
Proof.
  refine (proj2 (logout_does_not_revoke sample_auth_env sample_auth_world
                   (Some "Bearer tok-u1")) "tok-u1" _ _ _).
  - reflexivity.
  - discriminate.
  - reflexivity.
Defined.

(** X25. [optionalAuth] changes no table, and sets [req.user] to the very user
    [authenticateToken] would pass on; when it sets a user, the middleware
    passes that user on or fails on the session update. *)
Theorem optionalAuth_agrees env a (authorization : option string) :
  users (snd (optionalAuth env a authorization)) = users a
  /\ user_sessions (snd (optionalAuth env a authorization)) = user_sessions a
  /\ (forall user a',
        authenticateToken env a authorization = (Next user, a') ->
        optionalAuth env a authorization = (Some user, a))
  /\ (forall user,
        fst (optionalAuth env a authorization) = Some user ->
        fst (authenticateToken env a authorization) = Next user
        \/ fst (authenticateToken env a authorization)
           = Responded (respond 500 (ErrorBody "Authentication failed"))).
Proof.
  unfold optionalAuth, authenticateToken.
  destruct (js_not truthy_str (bearer_token authorization)).
  { repeat split; intros; discriminate. }
  destruct (verifyToken env _) as [decoded |].
  2:{ repeat split; intros; discriminate. }
  destruct (auth_fails env SelectUserById).
  { repeat split; intros; discriminate. }
  destruct (select_user_by_id (TokenPayload.userId decoded) a) as [| u rest].
  { repeat split; intros; discriminate. }
  destruct (auth_fails env TouchSession); cbn.
  - repeat split.
    + intros user a' [=].
    + intros user [= <-]. by right.
  - repeat split.
    + intros user a' [= <- _]. reflexivity.
    + intros user [= <-]. by left.
Qed.

Lemma optionalAuth_agrees_witness :
  optionalAuth sample_auth_env sample_auth_world (Some "Bearer tok-u1")
  = (Some (User.mk "u1" "ann@example.org" (Some "Ann") None), sample_auth_world).
Proof.
  refine (proj1 (proj2 (proj2 (optionalAuth_agrees sample_auth_env sample_auth_world
            (Some "Bearer tok-u1")))) _
            (set_sessions (fmap (touch_session "#tok-u1" 300)) sample_auth_world) _).
  reflexivity.
Defined.

(** X26. The sweep of expired sessions keeps, in order, exactly the sessions
    that expire now or later, never touches [users], leaves everything as it
    is when the store rejects the statement, and sweeping again at the same
    time removes nothing more. *)
Theorem cleanup_keeps_unexpired env a :
  users (cleanupExpiredSessions env a) = users a
  /\ (auth_fails env DeleteExpiredSessions = true ->
      user_sessions (cleanupExpiredSessions env a) = user_sessions a)
  /\ (auth_fails env DeleteExpiredSessions = false ->
      (forall s, s ∈ user_sessions (cleanupExpiredSessions env a)
                 <-> s ∈ user_sessions a /\ auth_now env <= UserSession.expires_at s)
      /\ user_sessions (cleanupExpiredSessions env a) `sublist_of` user_sessions a
      /\ user_sessions (cleanupExpiredSessions env (cleanupExpiredSessions env a))
         = user_sessions (cleanupExpiredSessions env a)).
Proof.
  unfold cleanupExpiredSessions.
  destruct (auth_fails env DeleteExpiredSessions); cbn.
  - repeat split; intros; discriminate.
  - split; [reflexivity |]. split; [discriminate |]. intros _. split; [| split].
    + intros s. rewrite list_elem_of_filter. split; intros [H1 H2]; split; try done; lia.
    + apply sublist_filter.
    + rewrite list_filter_filter. apply list_filter_iff. tauto.
Qed.

Lemma cleanup_keeps_unexpired_witness :
  user_sessions (cleanupExpiredSessions sample_auth_env sample_auth_world)
    `sublist_of` user_sessions sample_auth_world.
Proof.
  refine (proj1 (proj2 (proj2 (proj2 (cleanup_keeps_unexpired sample_auth_env
            sample_auth_world)) _))).
  reflexivity.
Defined.

(** X27. A session stored for a token is removed by a logout with that token,
    together with every other session of the same token hash and no other. *)
Theorem logout_removes_stored_session env a userId (scheme token : string)
    userAgent ipAddress :
  spaceless scheme = true ->
  spaceless token = true ->
  token <> "" ->
  auth_fails env InsertSession = false ->
  auth_fails env DeleteSession = false ->
  fst (storeSession env a userId token userAgent ipAddress) = true
  /\ user_sessions
       (snd (logout env (snd (storeSession env a userId token userAgent ipAddress))
               (Some (scheme ++ " " ++ token))))
     = filter (fun s => UserSession.token_hash s <> sha256_hex env token) (user_sessions a).
Proof.
  intros Hs Ht Hne Hins Hdel.
  unfold storeSession, logout. rewrite Hins.
  change (scheme ++ " " ++ token) with (scheme ++ String " " token).
  rewrite bearer_token_word by done. rewrite split_space_spaceless by done. cbn [head].
  destruct token as [| c token]; [done |]. cbn [js_not truthy_str negb String.eqb].
  cbn -[filter]. rewrite Hdel. cbn -[filter].
  split; [reflexivity |].
  rewrite filter_app, filter_cons_False, filter_nil, app_nil_r; [reflexivity |].
  cbn. intros H. by apply H.
Qed.

Lemma logout_removes_stored_session_witness :
  user_sessions
    (snd (logout sample_auth_env
            (snd (storeSession sample_auth_env sample_auth_world "u2" "tok-9" None None))
            (Some ("Bearer" ++ " " ++ "tok-9"))))
  = filter (fun s => UserSession.token_hash s <> sha256_hex sample_auth_env "tok-9")
      (user_sessions sample_auth_world).
Proof.
  refine (proj2 (logout_removes_stored_session sample_auth_env sample_auth_world "u2"
                   "Bearer" "tok-9" None None _ _ _ _ _)); try reflexivity.
  discriminate.
Defined.

(** ** The middleware in front of the routes *)

(** A decoding error comes from a route whose path matched, and in the
    routes of sync.ts from the first segment. *)
Lemma find_route_after_error pending routes m segments value :
  find_route_after pending routes m segments = DecodeError value ->
  (exists v, pending = Some v)
  \/ exists r v, r ∈ routes /\ match_path (route_path r) segments = Undecodable v.
Proof.
  revert pending. induction routes as [| r0 routes IH]; intros pending Hf; cbn in Hf.
  { destruct pending; [left; eauto | discriminate]. }
  destruct (match_path (route_path r0) segments) as [| v0 | ps] eqn:Hm.
  - apply IH in Hf as [? | (r & v & ? & ?)]; [by left | right].
    exists r, v. split; [by apply list_elem_of_further | done].
  - right. exists r0, v0. split; [apply list_elem_of_here | done].
  - destruct pending as [v |]; [left; eauto |].
    destruct (Method_eqb (route_method r0) m); [discriminate |].
    apply IH in Hf as [[? [=]] | (r & v & ? & ?)]. right.
    exists r, v. split; [by apply list_elem_of_further | done].
Qed.

Lemma router_undecodable r segments value :
  r ∈ router ->
  match_path (route_path r) segments = Undecodable value ->
  first_decodes segments = false.
Proof.
  unfold router. intros Hin.
  repeat (apply elem_of_cons in Hin as [-> | Hin]); [.. | by apply elem_of_nil in Hin].
  all: cbn [route_path]; unfold match_path, first_decodes.
  all: destruct segments as [| seg [| word [| x rest]]];
    cbn -[decodeURIComponent String.eqb to_lower truthy_str]; try discriminate.
  all: repeat (match goal with
               | |- context [if ?c then _ else _] => destruct c
               end;
               cbn -[decodeURIComponent String.eqb to_lower truthy_str]; try discriminate).
  all: destruct (decodeURIComponent seg); cbn; try discriminate; reflexivity.
Qed.

(** X28. Through the routes of sync.ts, the rows, the statistics row and the
    backups of a user stay as they are unless the request carries a token
    that [verifyToken] accepts and whose payload names that user; and for a
    request whose header the middleware answers instead of calling [next],
    no statement of the sync routes is sent and the tables are untouched,
    with nothing logged by the routes unless the path named a parameter that
    cannot be decoded (which the error handler logs). *)
Theorem sync_changes_need_the_owners_token aenv env (call : SyncCall) a d :
  (forall other,
     (forall token decoded,
        bearer_token (call_authorization call) = Some token ->
        verifyToken aenv token = Some decoded ->
        TokenPayload.userId decoded <> Some other) ->
     (forall threadId,
        user_data (committed (snd (serve_sync aenv env call a d))) !! (other, threadId)
        = user_data d !! (other, threadId))
     /\ storage_stats (committed (snd (serve_sync aenv env call a d))) !! other
        = storage_stats d !! other
     /\ filter (fun b => DataBackup.user_id b = other)
          (data_backups (committed (snd (serve_sync aenv env call a d))))
        = filter (fun b => DataBackup.user_id b = other) (data_backups d))
  /\ (forall resp a',
        authenticateToken aenv a (call_authorization call) = (Responded resp, a') ->
        issued (snd (serve_sync aenv env call a d)) = []
        /\ committed (snd (serve_sync aenv env call a d)) = d
        /\ working (snd (serve_sync aenv env call a d)) = None
        /\ (first_decodes (call_path call) = true ->
            snd (serve_sync aenv env call a d) = idle d)).
Proof.
  unfold serve_sync.
  destruct (find_route router (call_method call) (call_path call))
    as [route params | value |] eqn:Hr.
  3:{ split; [intros other _ | intros resp a' _]; by repeat split. }
  2:{ rewrite error_handler_run.
      split; [intros other _; by repeat split |].
      intros resp a' _. repeat split. intros Hdec.
      apply find_route_after_error in Hr as [[v [=]] | (r & v & Hin & Hm)].
      rewrite (router_undecodable r _ v Hin Hm) in Hdec. discriminate. }
  destruct (authenticateToken aenv a (call_authorization call)) as [[user | resp] a1] eqn:Hauth.
  2:{ split; [intros other _ | intros resp' a' _]; by repeat split. }
  split; [| intros resp a' [=]].
  intros other Hother.
  destruct (authenticateToken_next aenv a _ user a1 Hauth)
    as (token & decoded & Htok & _ & Hver & Hid & _).
  assert (Hne : other <> User.id user).
  { intros ->. exact (Hother token decoded Htok Hver Hid). }
  set (req := mkRequest (call_method call) (call_path call) (call_query_dataType call)
                (call_query_limit call) (call_body call) (call_backupId call) (User.id user)).
  assert (Hrun : route_handler route req params = handle req).
  { unfold handle, dispatch. cbn [method path req]. by rewrite Hr. }
  rewrite Hrun.
  pose proof (handle_frame env d req other Hne) as H.
  unfold stored in H.
  destruct (run (handle req) env d) as [o w]. exact H.
Qed.

Lemma sync_changes_need_the_owners_token_witness :
  snd (serve_sync sample_auth_env sample_env
         (mkSyncCall DELETE ["t1"] (Some "Bearer forged") None None (save_req 1 doc_a1) None)
         sample_auth_world db_v3)
  = idle db_v3.
Proof.
  refine (proj2 (proj2 (proj2 (proj2 (sync_changes_need_the_owners_token sample_auth_env
            sample_env
            (mkSyncCall DELETE ["t1"] (Some "Bearer forged") None None (save_req 1 doc_a1) None)
            sample_auth_world db_v3)
            (respond 403 (ErrorBody "Invalid or expired token")) sample_auth_world _))) _).
  - reflexivity.
  - reflexivity.
Defined.

(** ** Atomicity and backups *)

(** Whatever the store rejects, a Save, Restore or Delete leaves no
    transaction open unless the ROLLBACK itself is rejected; and on a store
    that marks a transaction aborted at its first rejected statement, the
    committed tables are the ones it started from or the ones of the run in
    which nothing is rejected. *)
Lemma perform_closes_transaction env d userId op w' :
  snd (run (perform userId op) env d) = w' ->
  (fails env Rollback = false -> working w' = None /\ tx_aborted w' = false)
  /\ (aborts_on_error env = true ->
      committed w' = d
      \/ committed w' = stored (run (perform userId op) (with_faults no_faults env) d)).
Proof.
  unfold stored.
  destruct (aborts_on_error env) eqn:Hab.
  all: destruct op as [[[t |] [dt |] [c |] v f] | t [b |] | t].
  all: exec; unfold with_faults, no_faults; red_sync; rewrite ?Hab; red_sync.
  all: try (destruct (truthy_str t)); try (destruct (truthy_str dt));
    try destruct (truthy c); red_sync.
  all: try (destruct (includes data_types dt)); red_sync.
  all: try (destruct (truthy_str b)); red_sync.
  all: crunch Hab.
  all: intros <-; cbn; split;
    [ intros HR; first [congruence | split; reflexivity]
    | intros Ha; first [discriminate Ha | by left | by right] ].
Qed.

(** X29. Failures and the transaction.  For Save, Restore and Delete, whatever
    the store rejects: if a statement that was sent, other than the two of
    [updateStorageStats], is rejected, the answer is 500 and the committed
    tables are the ones the operation started from; whenever the answer is
    500 the committed tables are unchanged; no transaction is left open or
    aborted unless the ROLLBACK itself is rejected; and on a store that marks
    a transaction aborted at its first rejected statement (PostgreSQL), the
    committed tables are either unchanged or those of the run in which
    nothing is rejected. *)
Theorem failures_leave_no_partial_write env d userId op :
  (rejected_outside_stats env (snd (run (perform userId op) env d)) = true ->
     (exists msg, response_of (run (perform userId op) env d)
                  = Some (respond 500 (ErrorBody msg)))
     /\ stored (run (perform userId op) env d) = d)
  /\ (forall resp,
        response_of (run (perform userId op) env d) = Some resp ->
        status resp = 500 ->
        stored (run (perform userId op) env d) = d)
  /\ (fails env Rollback = false ->
      working (snd (run (perform userId op) env d)) = None
      /\ tx_aborted (snd (run (perform userId op) env d)) = false)
  /\ (aborts_on_error env = true ->
      stored (run (perform userId op) env d) = d
      \/ stored (run (perform userId op) env d)
         = stored (run (perform userId op) (with_faults no_faults env) d)).
Proof.
  pose proof (perform_classified env d userId op) as H.
  pose proof (perform_closes_transaction env d userId op _ eq_refl) as [Hclosed Hall].
  split; [| split; [| split; [exact Hclosed | exact Hall]]].
  all: unfold stored, response_of.
  all: destruct (run (perform userId op) env d) as [[[st bd] | e] w'] eqn:Hrun;
    [| contradiction].
  all: cbn [fst snd] in *.
  all: destruct H as [(Hst & (msg & Hbd) & Hd & Hrej) | (Hst & Hrej & Hclean)];
    cbn [status body] in *.
  - intros _. subst. eauto.
  - intros Habs. congruence.
  - intros resp _ _. exact Hd.
  - intros resp [= <-] Hs. contradiction.
Qed.

Lemma failures_leave_no_partial_write_witness :
  (exists msg,
     response_of (run (perform "u1" (OpDelete "t1")) delete_fault_env db_two)
     = Some (respond 500 (ErrorBody msg)))
  /\ stored (run (perform "u1" (OpDelete "t1")) delete_fault_env db_two) = db_two.
Proof.
  refine (proj1 (failures_leave_no_partial_write delete_fault_env db_two "u1"
                   (OpDelete "t1")) _).
  reflexivity.
Defined.

Lemma restore_issued env d userId threadId backupId (backupData : DataBackup.t) others :
  (forall s, fails env s = false) ->
  truthy_str backupId = true ->
  filter (fun b => DataBackup.id b = backupId /\ DataBackup.user_id b = userId)
    (data_backups d) = backupData :: others ->
  issued (snd (run (restore userId threadId (Some backupId)) env d))
  = statements_of (OpRestore threadId (Some backupId))
      (bool_decide (is_Some (user_data d !! (userId, threadId)))).
Proof.
  intros Hok Hid Hfound.
  exec. rewrite Hid. red_sync. accept_all Hok.
  rewrite Hfound. red_sync. accept_all Hok.
  destruct (user_data d !! (userId, threadId)) as [row |] eqn:Hrow.
  - rewrite bool_decide_eq_true_2 by eauto.
    red_sync; accept_all Hok; rewrite ?Hrow; red_sync; accept_all Hok. reflexivity.
  - rewrite bool_decide_eq_false_2 by (intros [? ?]; discriminate).
    red_sync; accept_all Hok; rewrite ?Hrow; red_sync; accept_all Hok. reflexivity.
Qed.

(** X30. Backups of replaced rows.  (1) When the store accepts every
    statement, a Save that is well formed and passes the conflict check, a
    Restore that names a backup of the user and every Delete answer 200,
    send their backup statement after BEGIN and before COMMIT exactly when
    the thread had a stored row, and append to the backups exactly one row
    for it and none otherwise: Save a copy of the row, Restore and Delete
    the row's data type and version with its content as the driver passed
    it on ([pg_param]).  (2) After a sequence of well-formed Saves on one
    thread, each forced or with a version not below the stored one, the
    stored row is the one of the last call, and the backups gained one row
    per overwritten state: the row found first, if any, and the row of every
    call but the last. *)
Theorem replaced_rows_are_backed_up :
  (forall env d userId op,
     (forall s, fails env s = false) ->
     proceeds userId op d = true ->
     (exists body, response_of (run (perform userId op) env d) = Some (respond 200 body))
     /\ data_backups (stored (run (perform userId op) env d))
        = (data_backups d
           ++ ((fun row => backup_of env userId op row)
                 <$> option_list (user_data d !! (userId, op_thread op))))%list
     /\ issued (snd (run (perform userId op) env d))
        = statements_of op (bool_decide (is_Some (user_data d !! (userId, op_thread op)))))
  /\ (forall userId threadId (calls : list (Env * SyncRequest.t)) d,
        Forall (fun call : Env * SyncRequest.t =>
                  passes_validation (snd call) = true
                  /\ SyncRequest.threadId (snd call) = Some threadId
                  /\ forall s, fails (fst call) s = false) calls ->
        versions_accepted (UserData.version <$> (user_data d !! (userId, threadId))) calls ->
        calls <> [] ->
        (forall env req,
           last calls = Some (env, req) ->
           user_data (run_saves userId calls d) !! (userId, threadId)
           = Some (written env req))
        /\ data_backups (run_saves userId calls d)
           = (data_backups d
              ++ overwritten_states userId threadId (user_data d !! (userId, threadId))
                   calls)%list
        /\ length (overwritten_states userId threadId (user_data d !! (userId, threadId))
                     calls)
           = (length (option_list (user_data d !! (userId, threadId)))
              + (length calls - 1))%nat).
Proof.
  split.
  - intros env d userId op Hok Hgo.
    destruct op as [req | threadId backupId | threadId]; cbn [perform proceeds] in *.
    + apply andb_prop in Hgo as [Hvalid Hver].
      destruct (passes_validation_inv req Hvalid) as (t & dt & c & Hreq & _).
      assert (Hthread : SyncRequest.threadId req = Some t) by (by rewrite Hreq).
      assert (Hop : op_thread (OpSave req) = t) by (cbn; by rewrite Hthread).
      rewrite Hop in *.
      assert (Hver' :
        default false (SyncRequest.force req) = true
        \/ forall v, UserData.version <$> (user_data d !! (userId, t)) = Some v ->
                     v <= default 1 (SyncRequest.version req)).
      { apply orb_prop in Hver as [Hf | Hle]; [by left | right].
        intros v Hv. destruct (user_data d !! (userId, t)) as [row |]; [| discriminate].
        injection Hv as <-. by apply Z.leb_le. }
      destruct (save_stored_all env d userId req t Hvalid Hthread Hok Hver') as [Hresp Hw].
      split; [eauto | split].
      * unfold stored. rewrite Hw. cbn [committed set_storage_stats data_backups].
        unfold backup_of, backup_stamp. rewrite Hop. reflexivity.
      * rewrite Hw. reflexivity.
    + destruct backupId as [id |]; [| discriminate].
      apply andb_prop in Hgo as [Hid Hfound].
      destruct (filter (fun b => DataBackup.id b = id /\ DataBackup.user_id b = userId)
                  (data_backups d)) as [| backupData others] eqn:Hf; [discriminate |].
      destruct (restore_stored env d userId threadId id backupData others Hok Hid Hf)
        as [Hresp Hs].
      split; [eauto | split].
      * rewrite Hs. reflexivity.
      * exact (restore_issued env d userId threadId id backupData others Hok Hid Hf).
    + rewrite (delete_stored env d userId threadId Hok).
      split; [by eexists | split; reflexivity].
  - intros userId threadId calls d Hall Hver Hne.
    destruct (run_saves_backups userId threadId calls d Hall Hver) as [Hb Hl].
    split; [exact Hl | split; [exact Hb |]].
    by apply overwritten_states_length.
Qed.

Lemma replaced_rows_are_backed_up_witness :
  data_backups (stored (run (perform "u1" (OpDelete "t1")) sample_env db_list))
  = [DataBackup.mk "b-new" "u1" "t1" "document" (JObj []) 1 100].
Proof.
  refine (proj1 (proj2 (proj1 replaced_rows_are_backed_up sample_env db_list "u1"
                          (OpDelete "t1") _ _))).
  - reflexivity.
  - reflexivity.
Defined.
